(** * Property signatures (crossbeam/property_signatures/property_signatures.py)

    A shallow embedding of the property-signature module and the
    properties its specification states about it.

    Python objects are a tagged type; dispatch on [type(x)] is a match on
    the tag.  Exceptions are values of an error monad.  Python's true
    division of two ints is modelled by the exact quotient, kept in lowest
    terms ([Qred]), so [0.0], [0.5] and [1.0] are [0], [1#2] and [1]. *)

From Stdlib Require Import QArith.
From stdpp Require Import base decidable option numbers list sorting gmap strings.

Local Open Scope Z_scope.

(** ** Objects, types and exceptions *)

(** [type(x)]: the three handled classes and the others a caller can pass. *)
Inductive pytype : Type :=
  | TBool
  | TInt
  | TList
  | TNoneType
  | TFloat
  | TClass (name : string).

Global Instance pytype_eq_dec : EqDecision pytype.
Proof. solve_decision. Defined.

(** A runtime object.  A list holds integers (the module's data model); an
    instance of any other class carries its [num_free_variables] attribute
    when it has one. *)
Inductive pyobj : Type :=
  | PBool (b : bool)
  | PInt (z : Z)
  | PList (l : list Z)
  | PNone
  | PFloat (q : Q)
  | PInstance (cls : string) (nfv : option Z).

Definition type_of (x : pyobj) : pytype :=
  match x with
  | PBool _ => TBool
  | PInt _ => TInt
  | PList _ => TList
  | PNone => TNoneType
  | PFloat _ => TFloat
  | PInstance cls _ => TClass cls
  end.

(** [getattr(x, 'num_free_variables', 0)] *)
Definition getattr_num_free_variables (x : pyobj) : Z :=
  match x with
  | PInstance _ (Some n) => n
  | _ => 0
  end.

Inductive exn : Type :=
  | NotImplementedError (unhandled : pytype)
  | AssertionError
  | ZeroDivisionError
  | IndexError
  | ValueError
  | KeyError
  | NameError.

Inductive result (A : Type) : Type :=
  | Ok (a : A)
  | Err (e : exn).
Arguments Ok {A} a.
Arguments Err {A} e.

Definition rbind {A B} (r : result A) (k : A → result B) : result B :=
  match r with
  | Ok a => k a
  | Err e => Err e
  end.

Notation "'let*' x := r 'in' k" := (rbind r (fun x => k))
  (at level 10, x name, r at level 100, k at level 200,
   format "'[v' 'let*'  x  :=  r  'in' '/' k ']'").

Definition py_assert (c : bool) : result unit :=
  if c then Ok tt else Err AssertionError.

(** [sum((f(r) for r in rs), [])]: the generator is consumed left to right
    and the first exception stops it. *)
Fixpoint sum_lists {A B} (f : A → result (list B)) (rs : list A)
  : result (list B) :=
  match rs with
  | [] => Ok []
  | r :: rs' =>
      let* h := f r in
      let* t := sum_lists f rs' in
      Ok (h ++ t)
  end.

Definition rmap {A B} (f : A → B) (r : result A) : result B :=
  let* a := r in Ok (f a).

(** A list comprehension whose body may raise. *)
Fixpoint map_result {A B} (f : A → result B) (l : list A) : result (list B) :=
  match l with
  | [] => Ok []
  | a :: l' =>
      let* b := f a in
      let* bs := map_result f l' in
      Ok (b :: bs)
  end.

(** [d[k]] on a dict kept as an association list in insertion order. *)
Fixpoint dict_lookup {K V} `{EqDecision K} (k : K) (d : list (K * V))
  : result V :=
  match d with
  | [] => Err KeyError
  | (k', v) :: d' => if decide (k = k') then Ok v else dict_lookup k d'
  end.

(** [l[i]] for [0 <= i]. *)
Definition py_index {A} (l : list A) (i : nat) : result A :=
  match l !! i with
  | Some a => Ok a
  | None => Err IndexError
  end.

(** [a % b] and [a // b] on non-negative ints. *)
Definition py_mod (a b : nat) : result nat :=
  match b with
  | O => Err ZeroDivisionError
  | _ => Ok (a `mod` b)%nat
  end.

Definition py_floordiv (a b : nat) : result nat :=
  match b with
  | O => Err ZeroDivisionError
  | _ => Ok (a `div` b)%nat
  end.

(** [a / b] on non-negative ints: the quotient, in lowest terms. *)
Definition py_truediv (a b : nat) : result Q :=
  match b with
  | O => Err ZeroDivisionError
  | _ => Ok (Qred (Z.of_nat a # Pos.of_nat b))
  end.

(** The value a module-level [len(...)] binds when the module is loaded. *)
Definition len_at_import {A} (r : result (list A)) : nat :=
  match r with
  | Ok l => length l
  | Err _ => O
  end.

Definition Zeqb_list (x y : list Z) : bool := bool_decide (x = y).

(** ** Module constants *)

Definition DEFAULT_VALUES : list (pytype * pyobj) :=
  [(TBool, PBool false); (TInt, PInt 0); (TList, PList [])].

Definition VALUES_TO_TRY : list (pytype * list pyobj) :=
  [(TBool, [PBool false; PBool true]);
   (TInt, map PInt ([-100; -50; -20; -10; -7] ++
                    [-5; -4; -3; -2; -1; 0; 1; 2; 3; 4; 5] ++
                    [7; 10; 20; 50; 100]));
   (TList, map PList
      [ [];
        [0]; [-1]; [1]; [6];
        [0; 1]; [2; 2]; [-2; -4]; [5; -3]; [-8; 1];
        [1; 2; 3]; [6; 2; 5]; [-5; 2; -19];
        [-32; 51; -45; 23];
        [0; 0; 0; 0; 0];
        [2; 2; 1; 3; 3; 0];
        [5; -6; 9; -19; 43; 22; -1];
        [6; 21; 23; 45; 55; 67; 72; 75];
        [24; -22; 0; 1; 6; -59; 35; 1; -2];
        [0; 0; 0; 1; 1; 1; 1; 2; 3; 3] ])].

Definition FIXED_NUM_INPUTS : nat := 3.

(** ** Type classifier, basic properties, relevance *)

Definition _type_property (x : pyobj) : list bool :=
  let type_x := type_of x in
  let is_lambda := 0 <? getattr_num_free_variables x in
  [is_lambda;
   bool_decide (type_x = TBool);
   bool_decide (type_x = TInt);
   bool_decide (type_x = TList)].

(** [len(set(x))] *)
Definition num_unique_of (x : list Z) : Z :=
  Z.of_nat (size (list_to_set x : gset Z)).

Definition _basic_properties (x : pyobj) : result (list bool) :=
  match x with
  | PBool x => Ok [x; negb x]
  | PInt x =>
      let abs_x := Z.abs x in
      Ok [x =? -1;
          x =? 0;
          x =? 1;
          x =? 2;
          x >? 0;
          x <? 0;
          abs_x <? 5;
          abs_x <? 10;
          abs_x <? 30;
          abs_x <? 100;
          abs_x <? 300;
          abs_x >=? 300]
  | PList x =>
      let sorted_x := merge_sort Z.le x in
      let reverse_sorted_x := reverse sorted_x in
      let num_unique := num_unique_of x in
      Ok [Zeqb_list x sorted_x;
          Zeqb_list x reverse_sorted_x;
          num_unique =? 1;
          num_unique <=? Z.of_nat (length x) `div` 2;
          num_unique =? Z.of_nat (length x)]
  | _ => Err (NotImplementedError (type_of x))
  end.

(** [max(x)], [min(x)] raise ValueError and [x[0]], [x[-1]] raise IndexError
    on an empty list. *)
Definition py_max (x : list Z) : result Z :=
  match x with
  | [] => Err ValueError
  | h :: t => Ok (foldl Z.max h t)
  end.

Definition py_min (x : list Z) : result Z :=
  match x with
  | [] => Err ValueError
  | h :: t => Ok (foldl Z.min h t)
  end.

Definition py_sum (x : list Z) : Z := foldl Z.add 0 x.

Definition py_first (x : list Z) : result Z :=
  match x with
  | [] => Err IndexError
  | h :: _ => Ok h
  end.

Definition py_last (x : list Z) : result Z :=
  match last x with
  | None => Err IndexError
  | Some e => Ok e
  end.

Definition _relevant (x : pyobj) : result (list pyobj) :=
  match x with
  | PBool _ => Ok [x]
  | PInt _ => Ok [x]
  | PList l =>
      let orig_x := x in
      let len_x := Z.of_nat (length l) in
      let x := match l with [] => [0] | _ => l end in
      let* mx := py_max x in
      let* mn := py_min x in
      let sm := py_sum x in
      let* fst := py_first x in
      let* lst := py_last x in
      Ok [orig_x; PInt len_x; PInt mx; PInt mn; PInt sm; PInt fst; PInt lst]
  | _ => Err (NotImplementedError (type_of x))
  end.

(** ** Basic signature *)

Definition _basic_signature_variable_length (x : pyobj) : result (list bool) :=
  let tp := _type_property x in
  let* rs := _relevant x in
  let* props := sum_lists _basic_properties rs in
  Ok (tp ++ props).

Definition _BASIC_SIGNATURE_LENGTH_BY_TYPE : list (pytype * nat) :=
  Eval vm_compute in
  map (λ td : pytype * pyobj,
         (td.1, len_at_import (_basic_signature_variable_length td.2)))
      DEFAULT_VALUES.

Definition _basic_signature (x : pyobj) (fixed_length : bool)
  : result (list (option bool)) :=
  if negb fixed_length then
    rmap (map Some) (_basic_signature_variable_length x)
  else
    let type_x := type_of x in
    let* basic_signature := _basic_signature_variable_length x in
    sum_lists
      (λ t, if decide (type_x = t) then Ok (map Some basic_signature)
            else let* n := dict_lookup t _BASIC_SIGNATURE_LENGTH_BY_TYPE in
                 Ok (replicate n None))
      (map fst DEFAULT_VALUES).

(** ** Pairwise comparison *)

Definition _compare_same_type (x y : pyobj) : result (list bool) :=
  let type_x := type_of x in
  let* _ := py_assert (bool_decide (type_x = type_of y)) in
  match x, y with
  | PBool x, PBool y => Ok [eqb x y; negb (eqb x y); x && y; x || y]
  | PInt x, PInt y =>
      let abs_diff := Z.abs (x - y) in
      Ok [x =? y;
          x <? y;
          x >? y;
          abs_diff <? 2;
          abs_diff <? 5;
          abs_diff <? 10;
          abs_diff <? 100;
          eqb (x >=? 0) (y >=? 0)]
  | PList x, PList y =>
      let unique_x : gset Z := list_to_set x in
      let unique_y : gset Z := list_to_set y in
      let len_x := Z.of_nat (length x) in
      let len_y := Z.of_nat (length y) in
      Ok [Zeqb_list x y;
          len_x =? len_y;
          len_x >? len_y;
          len_x <? len_y;
          Z.abs (len_x - len_y) <? 2;
          forallb (λ p : Z * Z, p.1 <=? p.2) (zip x y);
          forallb (λ p : Z * Z, p.1 >=? p.2) (zip x y);
          forallb (λ p : Z * Z, p.1 =? p.2) (zip x y);
          bool_decide (unique_x = unique_y);
          bool_decide (unique_x ⊆ unique_y);
          bool_decide (unique_y ⊆ unique_x)]
  | _, _ => Err (NotImplementedError type_x)
  end.

Definition _compare_variable_length (x y : pyobj) : result (list bool) :=
  let type_x := type_of x in
  let type_y := type_of y in
  if decide (type_x = type_y) then _compare_same_type x y
  else
    let* rx := _relevant x in
    let* a := sum_lists (λ r, _compare_same_type r y)
                (filter (λ r, type_of r = type_y) rx) in
    let* ry := _relevant y in
    let* b := sum_lists (λ r, _compare_same_type x r)
                (filter (λ r, type_x = type_of r) ry) in
    Ok (a ++ b).

(** [itertools.product(DEFAULT_VALUES, repeat=2)] *)
Definition type_pairs : list (pytype * pytype) :=
  list_prod (map fst DEFAULT_VALUES) (map fst DEFAULT_VALUES).

Definition _COMPARE_LENGTH_BY_TYPES : list (pytype * pytype * nat) :=
  Eval vm_compute in
  map (λ tt : pytype * pytype,
         (tt,
          len_at_import
            (let* d1 := dict_lookup tt.1 DEFAULT_VALUES in
             let* d2 := dict_lookup tt.2 DEFAULT_VALUES in
             _compare_variable_length d1 d2)))
      type_pairs.

Definition _compare (x y : pyobj) (fixed_length : bool)
  : result (list (option bool)) :=
  let type_x := type_of x in
  let type_y := type_of y in
  if negb fixed_length then
    rmap (map Some) (_compare_variable_length x y)
  else
    sum_lists
      (λ tt : pytype * pytype,
         if decide ((type_x, type_y) = tt)
         then rmap (map Some) (_compare_variable_length x y)
         else let* n := dict_lookup tt _COMPARE_LENGTH_BY_TYPES in
              Ok (replicate n None))
      type_pairs.

(** ** One example, one object *)

Definition _property_signature_single_example
    (inputs : list pyobj) (output : pyobj) (fixed_length : bool)
  : result (list (option bool)) :=
  let per_input := λ i,
    let* b := _basic_signature i fixed_length in
    let* c := _compare i output fixed_length in
    Ok (b ++ c) in
  if negb fixed_length then
    let* b := _basic_signature output fixed_length in
    let* rest := sum_lists per_input inputs in
    Ok (b ++ rest)
  else
    let inputs :=
      if (FIXED_NUM_INPUTS <? length inputs)%nat
      then take FIXED_NUM_INPUTS inputs else inputs in
    let* result := _basic_signature output fixed_length in
    let basic_sig_length := length result in
    let* ext := sum_lists per_input inputs in
    let result := result ++ ext in
    if (length inputs <? FIXED_NUM_INPUTS)%nat then
      let* m := py_mod (length result - basic_sig_length) (length inputs) in
      let* _ := py_assert (m =? 0)%nat in
      let* per := py_floordiv (length result - basic_sig_length)
                              (length inputs) in
      Ok (result ++
          replicate (per * (FIXED_NUM_INPUTS - length inputs))%nat None)
    else Ok result.

Definition _property_signature_single_object
    (x output : pyobj) (fixed_length : bool) : result (list (option bool)) :=
  let* b := _basic_signature x fixed_length in
  let* c := _compare x output fixed_length in
  Ok (b ++ c).

(** ** Reduction across examples *)

Definition reduced : Type := Q * bool * bool * Q.

(** [zip] of the unpacked signatures: the columns, as long as the shortest
    signature. *)
Fixpoint zip_star {A} (signatures : list (list A)) : list (list A) :=
  match signatures with
  | [] => []
  | [s] => map (λ a, [a]) s
  | s :: rest => zip_with cons s (zip_star rest)
  end.

(** [sum(bools)]: each [True] counts 1. *)
Definition sum_bools (bools : list bool) : nat :=
  length (filter (λ b, b = true) bools).

Definition reduce_column (num_examples : nat) (bools : list (option bool))
  : result reduced :=
  let bools_not_none := omap id bools in
  let num_not_none := length bools_not_none in
  let* frac_true :=
    if negb (num_not_none =? 0)%nat
    then py_truediv (sum_bools bools_not_none) num_not_none
    else Ok (1 # 2)%Q in
  let* coverage := py_truediv (length bools_not_none) num_examples in
  Ok (coverage, Qeq_bool frac_true 1, Qeq_bool frac_true 0, frac_true).

Definition _reduce_across_examples (signatures : list (list (option bool)))
  : result (list reduced) :=
  let num_examples := length signatures in
  let* _ := py_assert (negb (num_examples =? 0)%nat) in
  let* first := py_index signatures 0 in
  let signature_len := length first in
  let* _ := py_assert
              (forallb (λ sig, (length sig =? signature_len)%nat) signatures) in
  map_result (reduce_column num_examples) (zip_star signatures).

(** ** Multi-example values *)

(** The outcome of calling a per-example callable. *)
Inductive call_result : Type :=
  | Raises
  | Returns (o : pyobj).

(** A per-example entry of a value: a concrete object or a callable. *)
Inductive entry : Type :=
  | Obj (o : pyobj)
  | Fn (f : list pyobj → call_result).

(** Modelled from the spec: the [Value] class of [crossbeam.dsl.value]
    (not part of this module): a column of per-example entries with
    [num_examples], [num_free_variables] and indexing by example. *)
Record Value : Type := mkValue {
  values : list entry;
  num_examples : nat;
  num_free_variables : Z
}.

(** The entry seen as an object; a callable is an instance of [function]. *)
Definition obj_of_entry (e : entry) : pyobj :=
  match e with
  | Obj o => o
  | Fn _ => PInstance "function" None
  end.

(** [value[i]] *)
Definition getitem (v : Value) (i : nat) : result pyobj :=
  rmap obj_of_entry (py_index (values v) i).

(** The value itself seen as an object, for [_type_property(value)]. *)
Definition obj_of_Value (v : Value) : pyobj :=
  PInstance "Value" (Some (num_free_variables v)).

(** A call of [lambda_fn] on the unpacked inputs; calling a non-callable
    raises. *)
Definition call (e : entry) (args : list pyobj) : call_result :=
  match e with
  | Fn f => f args
  | Obj _ => Raises
  end.

(** Modelled from the spec: the constructors of [crossbeam.dsl.value] used
    for the module-level lengths. *)
Definition ConstantValue (c : pyobj) : Value :=
  mkValue [Obj c] 1 0.

Definition OutputValue (vs : list pyobj) : Value :=
  mkValue (map Obj vs) (length vs) 0.

Definition InputVariable (vs : list pyobj) (name : string) : Value :=
  mkValue (map Obj vs) (length vs) 0.

(** Modelled from the spec: the canonical 1-ary functional value wrapping
    addition, [Add().apply([ConstantValue(10), x], free_variables=[x])]. *)
Definition add_10 (args : list pyobj) : call_result :=
  match args with
  | [PInt z] => Returns (PInt (10 + z))
  | [PBool b] => Returns (PInt (10 + Z.b2z b))
  | _ => Raises
  end.

Definition _LAMBDA_VALUE : Value := mkValue [Fn add_10] 1 1.

Definition _property_signature_concrete_value
    (value output_value : Value) (fixed_length : bool)
  : result (list reduced) :=
  let* _ := py_assert (num_free_variables value =? 0) in
  let* signatures :=
    map_result
      (λ i, let* v := getitem value i in
            let* o := getitem output_value i in
            _property_signature_single_object v o fixed_length)
      (seq 0 (num_examples output_value)) in
  _reduce_across_examples signatures.

Definition property_signature_io_examples
    (input_values : list Value) (output_value : Value) (fixed_length : bool)
  : result (list reduced) :=
  let n_examples := num_examples output_value in
  let* _ := py_assert
              (forallb (λ i_value, (num_examples i_value =? n_examples)%nat)
                       input_values) in
  let* signatures :=
    map_result
      (λ example_index,
         let* inputs := map_result (λ i_value, getitem i_value example_index)
                          input_values in
         let* output := getitem output_value example_index in
         _property_signature_single_example inputs output fixed_length)
      (seq 0 n_examples) in
  _reduce_across_examples signatures.

Definition IO_EXAMPLES_SIGNATURE_LENGTH : nat :=
  Eval vm_compute in
  len_at_import
    (property_signature_io_examples
       [InputVariable [PInt 1; PInt 2] "in1"]
       (OutputValue [PInt (-1); PInt (-2)]) true).

(** ** Lambda sampler *)

(** [itertools.product(pool, repeat=k)] *)
Fixpoint product_repeat {A} (pool : list A) (k : nat) : list (list A) :=
  match k with
  | O => [[]]
  | S k' => x ← pool; map (cons x) (product_repeat pool k')
  end.

Definition io_pair : Type := list pyobj * pyobj.

(** The [try] body of [_run_lambda] on one callable and its list of pairs. *)
Definition try_lambda (lambda_fn : entry) (inputs_list : list pyobj)
    (io_pairs : list io_pair) : list io_pair :=
  match call lambda_fn inputs_list with
  | Returns PNone => io_pairs
  | Returns result => io_pairs ++ [(inputs_list, result)]
  | Raises => io_pairs
  end.

(** The inner loop over [zip(value.values, io_pairs_per_example)]; lists
    beyond the shorter of the two are left as they are. *)
Fixpoint run_examples (fns : list entry) (inputs_list : list pyobj)
    (io_pairs_per_example : list (list io_pair)) : list (list io_pair) :=
  match fns, io_pairs_per_example with
  | lambda_fn :: fns', io_pairs :: rest =>
      try_lambda lambda_fn inputs_list io_pairs
        :: run_examples fns' inputs_list rest
  | _, _ => io_pairs_per_example
  end.

Definition inputs_to_try : list pyobj :=
  concat (map snd VALUES_TO_TRY).

Definition _run_lambda (value : Value) : result (list (list io_pair)) :=
  let arity := num_free_variables value in
  let* _ := py_assert (0 <? arity) in
  let num_examples := num_examples value in
  let io_pairs_per_example := replicate num_examples [] in
  Ok (foldl (λ st inputs_list, run_examples (values value) inputs_list st)
        io_pairs_per_example
        (product_repeat inputs_to_try (Z.to_nat arity))).

Definition _REDUCED_PADDING : reduced := (0 # 1, false, false, 1 # 2)%Q.

(** [enumerate(l)] *)
Definition enumerate {A} (l : list A) : list (nat * A) :=
  zip (seq 0 (length l)) l.

(** The signature of one behaviour sample of a lambda. *)
Definition sample_signature (value output_value : Value) (fixed_length : bool)
    (example_index : nat) (pair : io_pair) : result (list (option bool)) :=
  let '(inputs, output) := pair in
  let tp := map Some (_type_property (obj_of_Value value)) in
  let* o := getitem output_value example_index in
  let* c := _compare output o fixed_length in
  let* s := _property_signature_single_example inputs output fixed_length in
  Ok (tp ++ c ++ s).

(** [_property_signature_lambda], with the module global
    [_SIGNATURE_LENGTH_LAMBDA_VALUE] as it is bound when the call is made
    ([None] while the module is still computing it). *)
Definition _property_signature_lambda_with (lambda_length : option nat)
    (value output_value : Value) (fixed_length : bool)
  : result (list reduced) :=
  let* io_pairs_per_example := _run_lambda value in
  if forallb (λ pairs_for_example : list io_pair,
                bool_decide (pairs_for_example = []))
             io_pairs_per_example
  then
    match lambda_length with
    | Some n => Ok (replicate n _REDUCED_PADDING)
    | None => Err NameError
    end
  else
    let* signatures_to_reduce :=
      sum_lists
        (λ ip : nat * list io_pair,
           map_result
             (sample_signature value output_value fixed_length ip.1) ip.2)
        (enumerate io_pairs_per_example) in
    _reduce_across_examples signatures_to_reduce.

Definition _SIGNATURE_LENGTH_CONCRETE_VALUE : nat :=
  Eval vm_compute in
  len_at_import
    (_property_signature_concrete_value
       (ConstantValue (PInt 0)) (OutputValue [PInt 1]) true).

Definition _SIGNATURE_LENGTH_LAMBDA_VALUE : nat :=
  Eval vm_compute in
  len_at_import
    (_property_signature_lambda_with None
       _LAMBDA_VALUE (OutputValue [PInt 1]) true).

Definition _property_signature_lambda
    (value output_value : Value) (fixed_length : bool)
  : result (list reduced) :=
  _property_signature_lambda_with (Some _SIGNATURE_LENGTH_LAMBDA_VALUE)
    value output_value fixed_length.

(** ** Top-level dispatcher *)

Definition property_signature_value
    (value output_value : Value) (fixed_length : bool)
  : result (list reduced) :=
  if negb fixed_length then
    if negb (num_free_variables value =? 0)
    then _property_signature_lambda value output_value fixed_length
    else _property_signature_concrete_value value output_value fixed_length
  else
    if negb (num_free_variables value =? 0)
    then
      let* l := _property_signature_lambda value output_value fixed_length in
      Ok (replicate _SIGNATURE_LENGTH_CONCRETE_VALUE _REDUCED_PADDING ++ l)
    else
      let* c := _property_signature_concrete_value
                  value output_value fixed_length in
      Ok (c ++ replicate _SIGNATURE_LENGTH_LAMBDA_VALUE _REDUCED_PADDING).

Definition VALUE_SIGNATURE_LENGTH : nat :=
  Eval vm_compute in
  len_at_import
    (property_signature_value
       (InputVariable [PInt 1; PInt 2] "in1")
       (OutputValue [PInt (-1); PInt (-2)]) true).

(** ** Predicates used in the statements *)

(** The closed set of handled runtime types. *)
Definition handled_type (t : pytype) : bool :=
  match t with
  | TBool | TInt | TList => true
  | _ => false
  end.

Definition supported (x : pyobj) : Prop := handled_type (type_of x) = true.

Definition raises_unhandled_type {A} (r : result A) : Prop :=
  ∃ t, r = Err (NotImplementedError t).

(** A bit vector with exactly one [True]. *)
Definition one_hot (bits : list bool) : Prop := sum_bools bits = 1%nat.

(** The cross-type comparison as the specification words it: [x] against
    the members of [y]'s relevance set of [x]'s type, followed by the members
    of [x]'s relevance set of [y]'s type against [y]. *)
Definition compare_cross_type_spec (x y : pyobj) : result (list bool) :=
  let* ry := _relevant y in
  let* x_vs_members :=
    sum_lists (λ r, _compare_same_type x r)
      (filter (λ r, type_of r = type_of x) ry) in
  let* rx := _relevant x in
  let* members_vs_y :=
    sum_lists (λ r, _compare_same_type r y)
      (filter (λ r, type_of r = type_of y) rx) in
  Ok (x_vs_members ++ members_vs_y).

(** The entries at position [j], one per signature. *)
Definition column (j : nat) (signatures : list (list (option bool)))
  : list (option bool) :=
  map (λ s, default None (s !! j)) signatures.

(** The applicable (non-[None]) entries of a column. *)
Definition applicable (col : list (option bool)) : list bool := omap id col.

(** What the reduction of a column over [num_examples] samples is. *)
Definition is_reduction (num_examples : nat) (col : list (option bool))
    (r : reduced) : Prop :=
  let '(coverage, all_true, all_false, frac_true) := r in
  (coverage == inject_Z (Z.of_nat (length (applicable col)))
               / inject_Z (Z.of_nat num_examples))%Q ∧
  match applicable col with
  | [] => frac_true = (1 # 2)%Q
  | _ => (frac_true == inject_Z (Z.of_nat (sum_bools (applicable col)))
                       / inject_Z (Z.of_nat (length (applicable col))))%Q
  end ∧
  (all_true = true ↔ (frac_true == 1)%Q) ∧
  (all_false = true ↔ (frac_true == 0)%Q).

(** The probe tuples a lambda value is run on. *)
Definition probe_tuples (value : Value) : list (list pyobj) :=
  product_repeat inputs_to_try (Z.to_nat (num_free_variables value)).

(** The behaviour samples one callable contributes: the probe tuples on
    which it returns something other than [None], with what it returns. *)
Definition samples_of (lambda_fn : entry) (probes : list (list pyobj))
  : list io_pair :=
  omap (λ inputs_list,
          match call lambda_fn inputs_list with
          | Returns PNone => None
          | Returns result => Some (inputs_list, result)
          | Raises => None
          end) probes.

(** Each callable's samples appended to its list of pairs. *)
Fixpoint collect (fns : list entry) (probes : list (list pyobj))
    (io_pairs_per_example : list (list io_pair)) : list (list io_pair) :=
  match fns, io_pairs_per_example with
  | lambda_fn :: fns', io_pairs :: rest =>
      (io_pairs ++ samples_of lambda_fn probes) :: collect fns' probes rest
  | _, _ => io_pairs_per_example
  end.

(** No call of any per-example callable on any probe tuple succeeds with a
    result other than [None]. *)
Definition never_succeeds (value : Value) : Prop :=
  ∀ lambda_fn inputs_list,
    lambda_fn ∈ values value → inputs_list ∈ probe_tuples value →
    call lambda_fn inputs_list = Raises ∨
    call lambda_fn inputs_list = Returns PNone.

(** A value has one entry per example, and at least one example. *)
Definition Value_wf (v : Value) : Prop :=
  num_examples v = length (values v) ∧ (1 ≤ num_examples v)%nat.

(** Every entry is a concrete bool, int or list. *)
Definition concrete_entries (v : Value) : Prop :=
  Forall (λ e, ∃ o, e = Obj o ∧ supported o) (values v).

(** Whatever a callable returns on a probe tuple is [None] or a bool, int
    or list. *)
Definition lambda_results_supported (v : Value) : Prop :=
  ∀ lambda_fn inputs_list o,
    lambda_fn ∈ values v → inputs_list ∈ probe_tuples v →
    call lambda_fn inputs_list = Returns o → o ≠ PNone → supported o.

(** A callable that raises on every input. *)
Definition always_raises (args : list pyobj) : call_result := Raises.

(** A callable that returns the float 1.5 on every input. *)
Definition returns_float (args : list pyobj) : call_result :=
  Returns (PFloat (3 # 2)).

(** The total width of the slots that come before, and after, the slot of
    key [k] in a table of slot widths. *)
Fixpoint width_before {K} `{EqDecision K} (k : K) (table : list (K * nat))
  : nat :=
  match table with
  | [] => O
  | (k', n) :: table' =>
      if decide (k = k') then O else (n + width_before k table')%nat
  end.

Fixpoint width_after {K} `{EqDecision K} (k : K) (table : list (K * nat))
  : nat :=
  match table with
  | [] => O
  | (k', n) :: table' =>
      if decide (k = k') then sum_list (map snd table')
      else width_after k table'
  end.

(** * Properties *)

(** ** Comprehensions and sums that may raise *)

Section result_lists.
Context {A B : Type}.
Implicit Types (l : list A) (P : B → Prop).

Lemma map_result_lookup (f : A → result B) (g : A → B) (l : list A) :
  Forall (λ a, f a = Ok (g a)) l → map_result f l = Ok (map g l).
Proof.
  induction 1 as [|a l Ha _ IH]; simpl; [reflexivity|].
  rewrite Ha, IH. reflexivity.
Qed.

Lemma sum_lists_length (f : A → result (list B)) (n : nat) (l : list A) :
  Forall (λ a, ∃ r, f a = Ok r ∧ length r = n) l →
  ∃ r, sum_lists f l = Ok r ∧ length r = (n * length l)%nat.
Proof.
  induction 1 as [|a l (r & Hr & Hn) _ (rs & IH & Hrs)]; simpl.
  - exists []. split; [reflexivity | simpl; lia].
  - rewrite Hr, IH. simpl. eexists. split; [reflexivity|].
    rewrite length_app. lia.
Qed.

Lemma map_result_Forall (f : A → result B) (P : B → Prop) (l : list A) :
  Forall (λ a, ∃ b, f a = Ok b ∧ P b) l →
  ∃ bs, map_result f l = Ok bs ∧ Forall P bs ∧ length bs = length l.
Proof.
  induction 1 as [|a l (b & Hb & HP) _ (bs & IH & HPs & Hlen)]; simpl.
  - by exists [].
  - rewrite Hb, IH. simpl. eexists. split; [reflexivity|].
    split; [by constructor | simpl; lia].
Qed.

Lemma sum_lists_Forall (f : A → result (list B)) (P : B → Prop)
    (l : list A) :
  Forall (λ a, ∃ bs, f a = Ok bs ∧ Forall P bs) l →
  ∃ r, sum_lists f l = Ok r ∧ Forall P r.
Proof.
  induction 1 as [|a l (b & Hb & HP) _ (bs & IH & HPs)]; simpl.
  - by exists [].
  - rewrite Hb, IH. simpl. eexists. split; [reflexivity|].
    by apply Forall_app.
Qed.

Lemma sum_lists_nonempty (f : A → result (list B)) (l : list A)
    (r : list B) (a : A) :
  sum_lists f l = Ok r → a ∈ l → (∀ bs, f a = Ok bs → bs ≠ []) → r ≠ [].
Proof.
  revert r. induction l as [|h l IH]; intros r Hr Ha Hne; [by inv Ha|].
  simpl in Hr. destruct (f h) as [hs|] eqn:Hh; [|done].
  destruct (sum_lists f l) as [t|] eqn:Ht; [|done].
  simpl in Hr. injection Hr as <-.
  apply elem_of_cons in Ha as [-> | Ha].
  - specialize (Hne hs Hh). by destruct hs.
  - intros [_ E]%app_eq_nil. by eapply IH.
Qed.

End result_lists.

(** ** Relevance expansion *)

Lemma foldl_max_spec (t : list Z) (h : Z) :
  foldl Z.max h t ∈ h :: t ∧ Forall (λ e, e ≤ foldl Z.max h t) (h :: t).
Proof.
  revert h. induction t as [|a t IH]; intros h; simpl.
  - split; [left | repeat constructor; lia].
  - destruct (IH (Z.max h a)) as [Hin Hall].
    apply Forall_cons in Hall as [Hm Hall]. split.
    + apply elem_of_cons in Hin as [Hin | Hin]; [|right; right; exact Hin].
      rewrite Hin.
      destruct (Z.max_spec h a) as [[_ ->] | [_ ->]]; [right|]; left.
    + repeat constructor; [lia | lia | exact Hall].
Qed.

Lemma foldl_min_spec (t : list Z) (h : Z) :
  foldl Z.min h t ∈ h :: t ∧ Forall (λ e, foldl Z.min h t ≤ e) (h :: t).
Proof.
  revert h. induction t as [|a t IH]; intros h; simpl.
  - split; [left | repeat constructor; lia].
  - destruct (IH (Z.min h a)) as [Hin Hall].
    apply Forall_cons in Hall as [Hm Hall]. split.
    + apply elem_of_cons in Hin as [Hin | Hin]; [|right; right; exact Hin].
      rewrite Hin.
      destruct (Z.min_spec h a) as [[_ ->] | [_ ->]]; [|right]; left.
    + repeat constructor; [lia | lia | exact Hall].
Qed.

Lemma foldl_add_acc (l : list Z) (a : Z) :
  foldl Z.add a l = a + foldr Z.add 0 l.
Proof.
  revert a. induction l as [|h t IH]; intros a; simpl; [lia|].
  rewrite IH. lia.
Qed.

Lemma py_sum_foldr (l : list Z) : py_sum l = foldr Z.add 0 l.
Proof. unfold py_sum. rewrite foldl_add_acc. lia. Qed.

(** On a non-empty list every derived value exists. *)
Lemma relevant_nonempty (h : Z) (t : list Z) :
  ∃ mx mn lst,
    py_max (h :: t) = Ok mx ∧ py_min (h :: t) = Ok mn ∧
    py_last (h :: t) = Ok lst ∧
    mx ∈ h :: t ∧ Forall (λ e, e ≤ mx) (h :: t) ∧
    mn ∈ h :: t ∧ Forall (λ e, mn ≤ e) (h :: t) ∧
    last (h :: t) = Some lst.
Proof.
  destruct (foldl_max_spec t h) as [? ?], (foldl_min_spec t h) as [? ?].
  destruct (last (h :: t)) as [lst|] eqn:Hl.
  - exists (foldl Z.max h t), (foldl Z.min h t), lst.
    unfold py_last. rewrite Hl. simpl. tauto.
  - apply last_None in Hl. discriminate.
Qed.

Lemma relevant_list_shape (l : list Z) :
  ∃ mx mn sm fst lst,
    _relevant (PList l) =
    Ok [PList l; PInt (Z.of_nat (length l)); PInt mx; PInt mn; PInt sm;
        PInt fst; PInt lst].
Proof.
  destruct l as [|h t].
  - by exists 0, 0, 0, 0, 0.
  - destruct (relevant_nonempty h t)
      as (mx & mn & lst & Hmx & Hmn & Hlst & _).
    exists mx, mn, (py_sum (h :: t)), h, lst.
    unfold _relevant. rewrite Hmx, Hmn, Hlst. reflexivity.
Qed.

(** Replaces the relevance set of every list in the goal by its seven
    members. *)
Ltac expand_relevant :=
  repeat match goal with
  | |- context [_relevant (PList ?l)] =>
      let mx := fresh "mx" in let mn := fresh "mn" in
      let sm := fresh "sm" in let fst := fresh "fst" in
      let lst := fresh "lst" in
      destruct (relevant_list_shape l) as (mx & mn & sm & fst & lst & ->)
  end.

(** C7: for every list [l], [_relevant] returns the seven objects
    [l, len, max, min, sum, first, last], where max, min, sum, first and
    last are those of [l], or of the placeholder [[0]] when [l] is empty;
    the first component is [l] itself and the length is that of [l], so
    the empty list gives [[], 0, 0, 0, 0, 0, 0] and nothing fails. *)
Theorem relevant_of_list (l : list Z) :
  let x := match l with [] => [0] | _ => l end in
  ∃ mx mn fst lst,
    _relevant (PList l) =
      Ok [PList l; PInt (Z.of_nat (length l)); PInt mx; PInt mn;
          PInt (foldr Z.add 0 x); PInt fst; PInt lst] ∧
    mx ∈ x ∧ Forall (λ e, e ≤ mx) x ∧
    mn ∈ x ∧ Forall (λ e, mn ≤ e) x ∧
    head x = Some fst ∧ last x = Some lst ∧
    _relevant (PList []) =
      Ok [PList []; PInt 0; PInt 0; PInt 0; PInt 0; PInt 0; PInt 0].
Proof.
  destruct l as [|h t]; cbv zeta.
  - exists 0, 0, 0, 0.
    repeat split; try reflexivity; try (apply list_elem_of_singleton; done);
      repeat constructor; lia.
  - destruct (relevant_nonempty h t)
      as (mx & mn & lst & Hmx & Hmn & Hlst & H1 & H2 & H3 & H4 & H5).
    exists mx, mn, h, lst.
    rewrite <- (py_sum_foldr (h :: t)).
    unfold _relevant. rewrite Hmx, Hmn, Hlst. simpl.
    repeat split; assumption.
Qed.

(** ** Same-type comparison *)

(** C8: comparing [[1,2,3]] with [[1,2,3,4]] gives the eleven booleans
    equal, same length, longer, shorter, length difference below 2,
    elementwise <=, >= and == over the zipped prefix, set-equal, subset,
    superset = F, F, F, T, T, T, T, T, F, T, F. *)
Theorem compare_same_type_prefix_list :
  _compare_same_type (PList [1; 2; 3]) (PList [1; 2; 3; 4]) =
  Ok [false; false; false; true; true; true; true; true; false; true; false].
Proof. vm_compute. reflexivity. Qed.

Example compare_same_type_zero :
  _compare_same_type (PInt 0) (PInt 0)
  = Ok [true; false; false; true; true; true; true; true].
Proof. vm_compute. reflexivity. Qed.

(** ** Type classifier *)

(** C10: on a concrete bool, int or list, and on a functional value (an
    object of another class with a positive [num_free_variables]), exactly
    one of the four bits [is_lambda, is_boolean, is_integer, is_list] is
    true. *)
Theorem type_property_one_hot (x : pyobj) :
  supported x ∨
    (handled_type (type_of x) = false ∧ 0 < getattr_num_free_variables x) →
  length (_type_property x) = 4%nat ∧ one_hot (_type_property x).
Proof.
  intros [Hs | [Hu Hpos]].
  - destruct x; try discriminate Hs; split; reflexivity.
  - split; [reflexivity|].
    unfold _type_property, one_hot.
    apply Z.ltb_lt in Hpos. rewrite Hpos.
    destruct x; try discriminate Hu; reflexivity.
Qed.

Lemma type_property_one_hot_witness :
  (length (_type_property (PList [4; 2])) = 4%nat ∧
   one_hot (_type_property (PList [4; 2]))) ∧
  (length (_type_property (PInstance "Value" (Some 2))) = 4%nat ∧
   one_hot (_type_property (PInstance "Value" (Some 2)))).
Proof.
  split.
  - apply (type_property_one_hot (PList [4; 2])). left. reflexivity.
  - apply (type_property_one_hot (PInstance "Value" (Some 2))).
    right. split; [reflexivity | simpl; lia].
Defined.

(** ** Unhandled types *)

Lemma basic_properties_unhandled (x : pyobj) :
  handled_type (type_of x) = false →
  _basic_properties x = Err (NotImplementedError (type_of x)).
Proof. intros H. destruct x; try discriminate H; reflexivity. Qed.

Lemma relevant_unhandled (x : pyobj) :
  handled_type (type_of x) = false →
  _relevant x = Err (NotImplementedError (type_of x)).
Proof. intros H. destruct x; try discriminate H; reflexivity. Qed.

Lemma compare_same_type_unhandled (x y : pyobj) :
  handled_type (type_of x) = false → type_of x = type_of y →
  _compare_same_type x y = Err (NotImplementedError (type_of x)).
Proof.
  intros H E. unfold _compare_same_type.
  rewrite bool_decide_true by exact E.
  destruct x; try discriminate H; reflexivity.
Qed.

(** The members of a relevance set have handled types. *)
Lemma relevant_supported (x : pyobj) :
  supported x → ∃ rs, _relevant x = Ok rs ∧ Forall supported rs.
Proof.
  intros H. destruct x; try discriminate H.
  - eexists. split; [reflexivity|]. by repeat constructor.
  - eexists. split; [reflexivity|]. by repeat constructor.
  - destruct (relevant_list_shape l) as (mx & mn & sm & fst & lst & ->).
    eexists. split; [reflexivity|]. by repeat constructor.
Qed.

Lemma filter_type_unhandled (t : pytype) (rs : list pyobj) :
  handled_type t = false → Forall supported rs →
  filter (λ r, type_of r = t) rs = [].
Proof.
  intros Ht Hrs. induction Hrs as [|r rs Hr _ IH]; [reflexivity|].
  rewrite filter_cons, IH. destruct (decide (type_of r = t)) as [E|]; [|done].
  unfold supported in Hr. congruence.
Qed.

Lemma compare_variable_length_unhandled_l (x y : pyobj) :
  handled_type (type_of x) = false →
  _compare_variable_length x y = Err (NotImplementedError (type_of x)).
Proof.
  intros H. unfold _compare_variable_length.
  destruct (decide (type_of x = type_of y)) as [E|_].
  - by apply compare_same_type_unhandled.
  - by rewrite relevant_unhandled.
Qed.

Lemma compare_variable_length_unhandled_r (x y : pyobj) :
  handled_type (type_of y) = false →
  raises_unhandled_type (_compare_variable_length x y).
Proof.
  intros H. unfold _compare_variable_length.
  destruct (decide (type_of x = type_of y)) as [E|NE].
  - exists (type_of x). apply compare_same_type_unhandled; congruence.
  - destruct (handled_type (type_of x)) eqn:Hx.
    + destruct (relevant_supported x Hx) as (rs & -> & Hrs). simpl.
      rewrite (filter_type_unhandled _ _ H Hrs). simpl.
      rewrite (relevant_unhandled y H). by eexists.
    + rewrite (relevant_unhandled x Hx). by eexists.
Qed.

Lemma compare_fixed_length_unhandled (x y : pyobj) :
  handled_type (type_of x) = false ∨ handled_type (type_of y) = false →
  _compare x y true =
  Ok (replicate (4 + 0 + 0 + 0 + 8 + 48 + 0 + 48 + 11) None).
Proof.
  intros [H | H].
  - destruct x; try discriminate H; destruct y; reflexivity.
  - destruct y; try discriminate H; destruct x; reflexivity.
Qed.

(** C2 (amended): for an object of a type outside bool, int and list that
    declares no positive [num_free_variables], [_basic_properties],
    [_relevant] and the variable-length [_compare] (with the object on
    either side) raise the unhandled-type error, and nothing catches it;
    [_type_property] raises nothing and returns four false bits. *)
Theorem unhandled_type_behaviour (x : pyobj) :
  handled_type (type_of x) = false →
  getattr_num_free_variables x ≤ 0 →
  raises_unhandled_type (_basic_properties x) ∧
  raises_unhandled_type (_relevant x) ∧
  (∀ y, raises_unhandled_type (_compare x y false) ∧
        raises_unhandled_type (_compare y x false)) ∧
  _type_property x = [false; false; false; false].
Proof.
  intros H Hn. repeat split.
  - rewrite basic_properties_unhandled by done. by eexists.
  - rewrite relevant_unhandled by done. by eexists.
  - unfold _compare. simpl.
    rewrite compare_variable_length_unhandled_l by done. by eexists.
  - unfold _compare. simpl.
    destruct (compare_variable_length_unhandled_r y x H) as [t ->].
    by eexists.
  - unfold _type_property.
    replace (0 <? getattr_num_free_variables x) with false
      by (symmetry; apply Z.ltb_ge; exact Hn).
    destruct x; try discriminate H; reflexivity.
Qed.

Lemma unhandled_type_behaviour_witness :
  raises_unhandled_type (_basic_properties (PFloat (3 # 2))) ∧
  raises_unhandled_type (_relevant (PFloat (3 # 2))) ∧
  (∀ y, raises_unhandled_type (_compare (PFloat (3 # 2)) y false) ∧
        raises_unhandled_type (_compare y (PFloat (3 # 2)) false)) ∧
  _type_property (PFloat (3 # 2)) = [false; false; false; false].
Proof.
  apply (unhandled_type_behaviour (PFloat (3 # 2))); [reflexivity | simpl; lia].
Defined.

(** C2 as stated fails: on a float, the type classifier returns a vector
    and the fixed-length comparison returns a vector of [None]; neither
    raises. *)
Lemma unhandled_type_not_always_raised :
  ¬ raises_unhandled_type (Ok (_type_property (PFloat (3 # 2)))) ∧
  ¬ raises_unhandled_type (_compare (PFloat (3 # 2)) (PInt 0) true) ∧
  ¬ raises_unhandled_type (_compare (PInt 0) (PFloat (3 # 2)) true).
Proof.
  repeat split; intros [t Ht]; vm_compute in Ht; discriminate Ht.
Qed.

(** ** Cross-type comparison *)

(** C4: for handled objects of different types, the variable-length
    [_compare] equals the comparisons of [x] with the type-matching members
    of [y]'s relevance set followed by those of the type-matching members of
    [x]'s relevance set with [y]; for objects of one type it is exactly
    [_compare_same_type x y]. *)
Theorem compare_cross_type (x y : pyobj) :
  supported x → supported y →
  (type_of x ≠ type_of y →
   ∃ l, compare_cross_type_spec x y = Ok l ∧
        _compare x y false = Ok (map Some l)) ∧
  (type_of x = type_of y →
   ∃ l, _compare_same_type x y = Ok l ∧
        _compare x y false = Ok (map Some l)).
Proof.
  intros Hx Hy. split; intros Ht.
  - unfold _compare, _compare_variable_length, compare_cross_type_spec.
    destruct x; try discriminate Hx; destruct y; try discriminate Hy;
      try (exfalso; apply Ht; reflexivity);
      expand_relevant;
      eexists; split; reflexivity.
  - unfold _compare, _compare_variable_length.
    destruct (decide (type_of x = type_of y)) as [_|]; [|done].
    destruct x; try discriminate Hx; destruct y; try discriminate Hy;
      try discriminate Ht; eexists; split; reflexivity.
Qed.

Lemma compare_cross_type_witness :
  (∃ l, compare_cross_type_spec (PInt 3) (PList [1; 5]) = Ok l ∧
        _compare (PInt 3) (PList [1; 5]) false = Ok (map Some l)) ∧
  (∃ l, compare_cross_type_spec (PList [1; 5]) (PInt 3) = Ok l ∧
        _compare (PList [1; 5]) (PInt 3) false = Ok (map Some l)) ∧
  (∃ l, _compare_same_type (PList [2]) (PList [1; 5]) = Ok l ∧
        _compare (PList [2]) (PList [1; 5]) false = Ok (map Some l)).
Proof.
  split; [|split].
  - by apply (compare_cross_type (PInt 3) (PList [1; 5])).
  - by apply (compare_cross_type (PList [1; 5]) (PInt 3)).
  - by apply (compare_cross_type (PList [2]) (PList [1; 5])).
Defined.

(** ** Fixed-length widths *)

Lemma basic_signature_variable_length_ok (x : pyobj) :
  supported x →
  ∃ l, _basic_signature_variable_length x = Ok l ∧
       dict_lookup (type_of x) _BASIC_SIGNATURE_LENGTH_BY_TYPE = Ok (length l).
Proof.
  intros H. unfold _basic_signature_variable_length.
  destruct x; try discriminate H.
  - eexists. split; reflexivity.
  - eexists. split; reflexivity.
  - destruct (relevant_list_shape l) as (mx & mn & sm & fst & lst & ->).
    eexists. split; reflexivity.
Qed.

(** Every handled object fills one of the three slots; the width is the sum
    of the three slot widths. *)
Lemma basic_signature_fixed_length (x : pyobj) :
  supported x →
  ∃ l, _basic_signature x true = Ok l ∧ length l = (6 + 16 + 81)%nat.
Proof.
  intros H. unfold _basic_signature.
  destruct (basic_signature_variable_length_ok x H) as (l & -> & Hlen).
  destruct x; try discriminate H; simpl in Hlen; injection Hlen as Hlen;
    eexists; (split; [reflexivity|]);
    rewrite ?length_app, ?length_map, ?length_replicate, <- Hlen; reflexivity.
Qed.

Lemma compare_variable_length_ok (x y : pyobj) :
  supported x → supported y →
  ∃ l, _compare_variable_length x y = Ok l ∧
       dict_lookup (type_of x, type_of y) _COMPARE_LENGTH_BY_TYPES
         = Ok (length l).
Proof.
  intros Hx Hy. unfold _compare_variable_length.
  destruct x; try discriminate Hx; destruct y; try discriminate Hy;
    expand_relevant;
    eexists; split; reflexivity.
Qed.

Lemma compare_fixed_length (x y : pyobj) :
  supported x → supported y →
  ∃ l, _compare x y true = Ok l ∧ length l = 119%nat.
Proof.
  intros Hx Hy. unfold _compare.
  destruct (compare_variable_length_ok x y Hx Hy) as (l & -> & Hlen).
  destruct x; try discriminate Hx; destruct y; try discriminate Hy;
    simpl in Hlen; injection Hlen as Hlen;
    eexists; (split; [reflexivity|]);
    rewrite ?length_app, ?length_map, ?length_replicate, <- ?Hlen;
    reflexivity.
Qed.

Lemma single_object_fixed_length (x output : pyobj) :
  supported x → supported output →
  ∃ l, _property_signature_single_object x output true = Ok l ∧
       length l = 222%nat.
Proof.
  intros Hx Ho. unfold _property_signature_single_object.
  destruct (basic_signature_fixed_length x Hx) as (b & -> & Hb).
  destruct (compare_fixed_length x output Hx Ho) as (c & -> & Hc).
  eexists. split; [reflexivity|]. rewrite length_app, Hb, Hc. reflexivity.
Qed.

(** With one, two, three or more handled inputs the fixed-length signature
    of an example has one width: the output's basic signature and three
    input blocks. *)
Lemma single_example_fixed_length (inputs : list pyobj) (output : pyobj) :
  Forall supported inputs → (1 ≤ length inputs)%nat → supported output →
  ∃ l, _property_signature_single_example inputs output true = Ok l ∧
       length l = (103 + 3 * 222)%nat.
Proof.
  intros Hin Hne Ho. unfold _property_signature_single_example.
  cbv beta zeta. change (negb true) with false. cbv iota.
  set (inputs' := if (FIXED_NUM_INPUTS <? length inputs)%nat
                  then take FIXED_NUM_INPUTS inputs else inputs).
  assert (Hin' : Forall supported inputs').
  { subst inputs'. destruct (_ <? _)%nat; [by apply Forall_take | done]. }
  assert (Hk : (1 ≤ length inputs' ≤ 3)%nat).
  { subst inputs'. unfold FIXED_NUM_INPUTS in *.
    destruct (Nat.ltb_spec 3 (length inputs)).
    - rewrite length_take. lia.
    - lia. }
  clearbody inputs'.
  destruct (basic_signature_fixed_length output Ho) as (b & -> & Hb).
  cbn [rbind].
  destruct (sum_lists_length
    (λ i, let* b := _basic_signature i true in
          let* c := _compare i output true in Ok (b ++ c)) 222 inputs')
    as (ext & -> & Hext).
  { eapply Forall_impl; [exact Hin'|]. intros i Hi. simpl.
    destruct (basic_signature_fixed_length i Hi) as (bi & -> & Hbi).
    destruct (compare_fixed_length i output Hi Ho) as (c & -> & Hc).
    eexists. split; [reflexivity|]. rewrite length_app, Hbi, Hc. done. }
  cbn [rbind]. change (6 + 16 + 81)%nat with 103%nat in Hb.
  rewrite length_app, Hb, Hext.
  replace (103 + 222 * length inputs' - 103)%nat
    with (222 * length inputs')%nat by lia.
  unfold FIXED_NUM_INPUTS.
  destruct (length inputs') as [|[|[|[|k]]]] eqn:Ek; try lia.
  - eexists. split; [reflexivity|].
    rewrite !length_app, length_replicate, Hb, Hext. reflexivity.
  - eexists. split; [reflexivity|].
    rewrite !length_app, length_replicate, Hb, Hext. reflexivity.
  - eexists. split; [reflexivity|].
    rewrite !length_app, Hb, Hext. reflexivity.
Qed.

(** C3: with no inputs at all the padding step divides by the number of
    inputs: for every handled output the fixed-length signature of the
    example raises ZeroDivisionError instead of returning the padded
    vector. *)
Theorem single_example_no_inputs (output : pyobj) :
  supported output →
  _property_signature_single_example [] output true = Err ZeroDivisionError.
Proof.
  intros Ho. unfold _property_signature_single_example.
  destruct (basic_signature_fixed_length output Ho) as (b & Hb & _).
  simpl. rewrite Hb. reflexivity.
Qed.

(** The same failure seen from the public entry point, with no input
    values at all. *)
Example io_examples_no_inputs :
  property_signature_io_examples [] (OutputValue [PList [4; 5; 7; 10]]) true
  = Err ZeroDivisionError.
Proof. vm_compute. reflexivity. Qed.

Example io_examples_one_input :
  rmap length
    (property_signature_io_examples
       [InputVariable [PList [1; 2; 4; 7]] "in1"]
       (OutputValue [PList [4; 5; 7; 10]]) true)
  = Ok IO_EXAMPLES_SIGNATURE_LENGTH.
Proof. vm_compute. reflexivity. Qed.

Lemma single_example_no_inputs_witness :
  _property_signature_single_example [] (PList [4; 5; 7; 10]) true
  = Err ZeroDivisionError.
Proof. apply (single_example_no_inputs (PList [4; 5; 7; 10])). reflexivity. Defined.

(** ** Reduction engine *)

Lemma zip_star_length {A} (signatures : list (list A)) (L : nat) :
  signatures ≠ [] → Forall (λ s, length s = L) signatures →
  length (zip_star signatures) = L.
Proof.
  intros Hne Hall. induction Hall as [|s rest Hs Hrest IH]; [done|].
  destruct rest as [|s' rest].
  - simpl. by rewrite length_map.
  - change (zip_star (s :: s' :: rest))
      with (zip_with cons s (zip_star (s' :: rest))).
    rewrite length_zip_with, IH by done. lia.
Qed.

Lemma zip_star_lookup (signatures : list (list (option bool))) (L j : nat) :
  signatures ≠ [] → Forall (λ s, length s = L) signatures → (j < L)%nat →
  zip_star signatures !! j = Some (column j signatures).
Proof.
  intros Hne Hall Hj. induction Hall as [|s rest Hs Hrest IH]; [done|].
  destruct (lookup_lt_is_Some_2 s j) as [a Ha]; [lia|].
  destruct rest as [|s' rest].
  - simpl. rewrite list_lookup_fmap, Ha. reflexivity.
  - change (zip_star (s :: s' :: rest))
      with (zip_with cons s (zip_star (s' :: rest))).
    rewrite lookup_zip_with, Ha, IH by done.
    unfold column. simpl. rewrite Ha. reflexivity.
Qed.

Lemma truediv_correct (a n : nat) :
  n ≠ O →
  ∃ q, py_truediv a n = Ok q ∧
       (q == inject_Z (Z.of_nat a) / inject_Z (Z.of_nat n))%Q.
Proof.
  intros Hn. destruct n as [|n]; [done|].
  eexists. split; [reflexivity|].
  rewrite Qred_correct, Qmake_Qdiv.
  rewrite <- Pos.of_nat_succ, Zpos_P_of_succ_nat, <- Nat2Z.inj_succ.
  reflexivity.
Qed.

Lemma truediv_zero (n : nat) : n ≠ O → py_truediv 0 n = Ok (0 # 1)%Q.
Proof. intros Hn. destruct n as [|n]; [done | reflexivity]. Qed.

(** The reduction of a single column. *)
Lemma reduce_column_spec (num_examples : nat) (col : list (option bool)) :
  num_examples ≠ O →
  ∃ r, reduce_column num_examples col = Ok r ∧
       is_reduction num_examples col r ∧
       (applicable col = [] → r = _REDUCED_PADDING).
Proof.
  intros Hn. unfold reduce_column. fold (applicable col).
  destruct (applicable col) as [|b bs] eqn:Happ.
  - simpl. rewrite truediv_zero by done. simpl.
    eexists. split; [reflexivity|]. split; [|done].
    unfold is_reduction. rewrite Happ. repeat split; try done.
    all: intros H; vm_compute in H; discriminate H.
  - destruct (truediv_correct (sum_bools (b :: bs)) (length (b :: bs)))
      as (frac & Hfrac & Hf); [done|].
    destruct (truediv_correct (length (b :: bs)) num_examples)
      as (cov & Hcov & Hc); [done|].
    change (negb (length (b :: bs) =? 0)%nat) with true. cbv iota.
    rewrite Hfrac. cbn [rbind]. rewrite Hcov. cbn [rbind].
    eexists. split; [reflexivity|]. split; [|done].
    unfold is_reduction. rewrite Happ.
    repeat split; try assumption; apply Qeq_bool_iff.
Qed.

(** The whole reduction: one tuple per position, each the reduction of
    that position's column. *)
Lemma reduce_across_examples_columns
    (signatures : list (list (option bool))) (L : nat) :
  signatures ≠ [] → Forall (λ s, length s = L) signatures →
  ∃ res, _reduce_across_examples signatures = Ok res ∧ length res = L ∧
    ∀ j, (j < L)%nat →
      ∃ r, res !! j = Some r ∧
           is_reduction (length signatures) (column j signatures) r ∧
           (applicable (column j signatures) = [] → r = _REDUCED_PADDING).
Proof.
  intros Hne Hall. unfold _reduce_across_examples.
  destruct signatures as [|s0 rest] eqn:Es; [done|]. rewrite <- Es in *.
  assert (Hn : length signatures ≠ O) by (rewrite Es; simpl; lia).
  replace (negb (length signatures =? 0)%nat) with true
    by (symmetry; apply negb_true_iff, Nat.eqb_neq; exact Hn).
  replace (py_index signatures 0) with (Ok s0) by (rewrite Es; reflexivity).
  cbn [py_assert rbind].
  assert (Hs0 : length s0 = L).
  { rewrite Es in Hall. by apply Forall_cons in Hall as [? _]. }
  replace (forallb (λ sig, (length sig =? length s0)%nat) signatures)
    with true.
  2:{ symmetry. apply forallb_forall. intros s Hs. apply Nat.eqb_eq.
      rewrite Forall_forall in Hall. rewrite Hs0. apply Hall.
      by apply list_elem_of_In. }
  cbn [rbind].
  set (g := λ col, match reduce_column (length signatures) col with
                   | Ok r => r | Err _ => _REDUCED_PADDING end).
  rewrite (map_result_lookup _ g).
  2:{ apply Forall_forall. intros col _. subst g. simpl.
      destruct (reduce_column_spec (length signatures) col Hn) as (r & -> & _).
      reflexivity. }
  eexists. split; [reflexivity|].
  split; [rewrite length_map; by apply zip_star_length|].
  intros j Hj. rewrite list_lookup_fmap.
  rewrite (zip_star_lookup signatures L j) by done. simpl.
  destruct (reduce_column_spec (length signatures) (column j signatures) Hn)
    as (r & Hr & Hspec & Hpad).
  exists r. subst g. simpl. rewrite Hr. done.
Qed.

(** C5: for a non-empty list of signatures of one length [L], the reduction
    returns [L] tuples in position order; at position [j], coverage is the
    number of non-[None] entries over the number of signatures, frac_true
    is the mean of the non-[None] booleans, or 0.5 when there is none,
    all_true holds iff frac_true is 1 and all_false iff it is 0; a position
    that is [None] in every signature reduces to (0.0, False, False, 0.5). *)
Theorem reduce_across_examples_spec
    (signatures : list (list (option bool))) (L : nat) :
  signatures ≠ [] → Forall (λ s, length s = L) signatures →
  ∃ res, _reduce_across_examples signatures = Ok res ∧ length res = L ∧
    ∀ j, (j < L)%nat →
      ∃ r, res !! j = Some r ∧
           is_reduction (length signatures) (column j signatures) r ∧
           (Forall (λ s, s !! j = Some None) signatures →
            r = (0 # 1, false, false, 1 # 2)%Q).
Proof.
  intros Hne Hall.
  destruct (reduce_across_examples_columns signatures L Hne Hall)
    as (res & Hres & Hlen & Hcols).
  exists res. split; [done|]. split; [done|]. intros j Hj.
  destruct (Hcols j Hj) as (r & Hr & Hspec & Hpad).
  exists r. split; [done|]. split; [done|]. intros Hnone.
  apply Hpad. unfold applicable, column. clear -Hnone.
  induction Hnone as [|s rest Hs _ IH]; [reflexivity|].
  simpl. rewrite Hs. simpl. exact IH.
Qed.

Lemma reduce_across_examples_spec_witness :
  ∃ res,
    _reduce_across_examples
      [[Some true; None; Some false]; [Some true; None; Some true]] = Ok res ∧
    length res = 3%nat ∧
    ∀ j, (j < 3)%nat →
      ∃ r, res !! j = Some r ∧
           is_reduction 2
             (column j [[Some true; None; Some false];
                        [Some true; None; Some true]]) r ∧
           (Forall (λ s, s !! j = Some None)
              [[Some true; None; Some false]; [Some true; None; Some true]] →
            r = (0 # 1, false, false, 1 # 2)%Q).
Proof.
  apply (reduce_across_examples_spec
           [[Some true; None; Some false]; [Some true; None; Some true]] 3).
  - discriminate.
  - repeat constructor.
Defined.

Example reduce_two_examples :
  _reduce_across_examples
    [[Some true; None; Some false]; [Some true; None; Some true]]
  = Ok [(1 # 1, true, false, 1 # 1); (0 # 1, false, false, 1 # 2);
        (1 # 1, false, false, 1 # 2)]%Q.
Proof. vm_compute. reflexivity. Qed.

(** ** Lambda sampler *)

Lemma try_lambda_samples (lambda_fn : entry) (inputs_list : list pyobj)
    (io_pairs : list io_pair) :
  try_lambda lambda_fn inputs_list io_pairs
  = io_pairs ++ samples_of lambda_fn [inputs_list].
Proof.
  unfold try_lambda, samples_of. simpl.
  destruct (call lambda_fn inputs_list) as [|[]]; simpl;
    by rewrite ?app_nil_r.
Qed.

Lemma samples_of_cons (lambda_fn : entry) (inputs_list : list pyobj)
    (probes : list (list pyobj)) :
  samples_of lambda_fn (inputs_list :: probes)
  = samples_of lambda_fn [inputs_list] ++ samples_of lambda_fn probes.
Proof.
  unfold samples_of. simpl.
  destruct (call lambda_fn inputs_list) as [|[]]; reflexivity.
Qed.

Lemma collect_nil (fns : list entry) (st : list (list io_pair)) :
  collect fns [] st = st.
Proof.
  revert st. induction fns as [|fn fns IH]; intros [|p st]; simpl; try done.
  by rewrite app_nil_r, IH.
Qed.

Lemma collect_cons (fns : list entry) (inputs_list : list pyobj)
    (probes : list (list pyobj)) (st : list (list io_pair)) :
  collect fns probes (run_examples fns inputs_list st)
  = collect fns (inputs_list :: probes) st.
Proof.
  revert st. induction fns as [|fn fns IH]; intros [|p st];
    cbn [collect run_examples]; try done.
  rewrite IH, try_lambda_samples, (samples_of_cons fn inputs_list probes).
  by rewrite app_assoc.
Qed.

(** The two nested loops of [_run_lambda] give each callable its samples in
    probe order. *)
Lemma foldl_run_examples (fns : list entry) (probes : list (list pyobj))
    (st : list (list io_pair)) :
  foldl (λ st inputs_list, run_examples fns inputs_list st) st probes
  = collect fns probes st.
Proof.
  revert st. induction probes as [|i probes IH]; intros st; simpl.
  - by rewrite collect_nil.
  - by rewrite IH, collect_cons.
Qed.

Lemma run_lambda_collect (value : Value) :
  0 < num_free_variables value →
  _run_lambda value
  = Ok (collect (values value) (probe_tuples value)
          (replicate (num_examples value) [])).
Proof.
  intros Hpos. unfold _run_lambda.
  apply Z.ltb_lt in Hpos. rewrite Hpos. simpl.
  by rewrite foldl_run_examples.
Qed.

Lemma collect_replicate (fns : list entry) (probes : list (list pyobj)) :
  collect fns probes (replicate (length fns) [])
  = map (λ fn, samples_of fn probes) fns.
Proof. induction fns as [|fn fns IH]; simpl; [done | by rewrite IH]. Qed.

Lemma samples_of_elem (lambda_fn : entry) (probes : list (list pyobj))
    (inputs_list : list pyobj) (o : pyobj) :
  (inputs_list, o) ∈ samples_of lambda_fn probes →
  inputs_list ∈ probes ∧ call lambda_fn inputs_list = Returns o ∧ o ≠ PNone.
Proof.
  unfold samples_of. intros H.
  apply list_elem_of_omap in H as (i & Hi & Hc).
  destruct (call lambda_fn i) as [|r] eqn:Hcall; [done|].
  destruct r; try discriminate Hc; injection Hc as <- <-; done.
Qed.

Lemma samples_of_never (lambda_fn : entry) (probes : list (list pyobj)) :
  Forall (λ i, call lambda_fn i = Raises ∨ call lambda_fn i = Returns PNone)
    probes →
  samples_of lambda_fn probes = [].
Proof.
  induction 1 as [|i probes Hi _ IH]; [done|].
  rewrite samples_of_cons, IH. unfold samples_of. simpl.
  by destruct Hi as [-> | ->].
Qed.

Lemma collect_never (fns : list entry) (probes : list (list pyobj)) (n : nat) :
  Forall (λ fn, samples_of fn probes = []) fns →
  collect fns probes (replicate n []) = replicate n [].
Proof.
  intros H. revert n. induction H as [|fn fns Hfn _ IH]; intros [|n]; simpl;
    try done.
  by rewrite Hfn, IH.
Qed.

Lemma forallb_replicate_nil (n : nat) :
  forallb (λ pairs : list io_pair, bool_decide (pairs = [])) (replicate n [])
  = true.
Proof. induction n as [|n IH]; simpl; [done | exact IH]. Qed.

(** C6: a functional value of positive arity none of whose callables
    succeeds on any probe tuple has, in either mode, a lambda signature of
    exactly [_SIGNATURE_LENGTH_LAMBDA_VALUE] reduced-padding tuples, and
    [property_signature_value] returns it (after the concrete block of
    padding in fixed-length mode) without error. *)
Theorem lambda_never_runs_all_padding
    (value output_value : Value) (fixed_length : bool) :
  0 < num_free_variables value → never_succeeds value →
  _property_signature_lambda value output_value fixed_length
    = Ok (replicate _SIGNATURE_LENGTH_LAMBDA_VALUE (0 # 1, false, false, 1 # 2)%Q) ∧
  property_signature_value value output_value false
    = Ok (replicate _SIGNATURE_LENGTH_LAMBDA_VALUE _REDUCED_PADDING) ∧
  property_signature_value value output_value true
    = Ok (replicate _SIGNATURE_LENGTH_CONCRETE_VALUE _REDUCED_PADDING ++
          replicate _SIGNATURE_LENGTH_LAMBDA_VALUE _REDUCED_PADDING).
Proof.
  intros Hpos Hnever.
  assert (Hl : ∀ fl, _property_signature_lambda value output_value fl
            = Ok (replicate _SIGNATURE_LENGTH_LAMBDA_VALUE _REDUCED_PADDING)).
  { intros fl. unfold _property_signature_lambda,
      _property_signature_lambda_with.
    rewrite run_lambda_collect by done. cbn [rbind].
    rewrite collect_never, forallb_replicate_nil; [done|].
    apply Forall_forall. intros fn Hfn. apply samples_of_never.
    apply Forall_forall. intros i Hi. by apply Hnever. }
  split; [apply Hl|].
  unfold property_signature_value.
  replace (num_free_variables value =? 0) with false
    by (symmetry; apply Z.eqb_neq; lia).
  simpl. rewrite !Hl. done.
Qed.

Lemma lambda_never_runs_all_padding_witness :
  _property_signature_lambda
    (mkValue [Fn always_raises] 1 1) (OutputValue [PInt 1]) true
    = Ok (replicate _SIGNATURE_LENGTH_LAMBDA_VALUE (0 # 1, false, false, 1 # 2)%Q) ∧
  property_signature_value
    (mkValue [Fn always_raises] 1 1) (OutputValue [PInt 1]) false
    = Ok (replicate _SIGNATURE_LENGTH_LAMBDA_VALUE _REDUCED_PADDING) ∧
  property_signature_value
    (mkValue [Fn always_raises] 1 1) (OutputValue [PInt 1]) true
    = Ok (replicate _SIGNATURE_LENGTH_CONCRETE_VALUE _REDUCED_PADDING ++
          replicate _SIGNATURE_LENGTH_LAMBDA_VALUE _REDUCED_PADDING).
Proof.
  apply (lambda_never_runs_all_padding
           (mkValue [Fn always_raises] 1 1) (OutputValue [PInt 1]) true).
  - simpl. lia.
  - intros fn i Hfn _. apply list_elem_of_singleton in Hfn as ->.
    left. reflexivity.
Defined.

(** ** Probe tuples *)

Lemma inputs_to_try_supported : Forall supported inputs_to_try.
Proof. unfold inputs_to_try. simpl. repeat constructor. Qed.

Lemma product_repeat_elem {A} (pool : list A) (k : nat) (l : list A) :
  l ∈ product_repeat pool k → length l = k ∧ Forall (λ a, a ∈ pool) l.
Proof.
  revert l. induction k as [|k IH]; intros l; simpl.
  - intros ->%list_elem_of_singleton. by split.
  - intros (x & Hl & Hx)%list_elem_of_bind.
    apply list_elem_of_fmap in Hl as (l' & -> & Hl').
    destruct (IH l' Hl') as [<- Hall]. split; [done | by constructor].
Qed.

Lemma probe_tuples_supported (value : Value) (inputs_list : list pyobj) :
  0 < num_free_variables value → inputs_list ∈ probe_tuples value →
  Forall supported inputs_list ∧ (1 ≤ length inputs_list)%nat.
Proof.
  intros Hpos [Hlen Hall]%product_repeat_elem. split; [|lia].
  eapply Forall_impl; [exact Hall|]. intros a Ha.
  pose proof inputs_to_try_supported as Hs. rewrite Forall_forall in Hs.
  by apply Hs.
Qed.

(** The first probe tuple: [False] in every argument. *)
Lemma product_repeat_first (k : nat) :
  ∃ rest, product_repeat inputs_to_try k
          = replicate k (PBool false) :: rest.
Proof.
  induction k as [|k [rest IH]]; [by exists []|].
  cbn [product_repeat]. rewrite IH.
  unfold inputs_to_try. simpl. eexists. reflexivity.
Qed.

(** ** Results of an unhandled type *)

Lemma basic_signature_unhandled (x : pyobj) (fixed_length : bool) :
  handled_type (type_of x) = false →
  _basic_signature x fixed_length = Err (NotImplementedError (type_of x)).
Proof.
  intros H. unfold _basic_signature, _basic_signature_variable_length.
  rewrite relevant_unhandled by done. by destruct fixed_length.
Qed.

Lemma sample_signature_unhandled (value output_value : Value)
    (fixed_length : bool) (i : nat) (inputs : list pyobj) (o oi : pyobj) :
  handled_type (type_of o) = false → getitem output_value i = Ok oi →
  sample_signature value output_value fixed_length i (inputs, o)
  = Err (NotImplementedError (type_of o)).
Proof.
  intros Ho Hi. unfold sample_signature. rewrite Hi. cbn [rbind].
  destruct fixed_length.
  - rewrite compare_fixed_length_unhandled by (by left). cbn [rbind].
    unfold _property_signature_single_example. simpl.
    by rewrite basic_signature_unhandled.
  - unfold _compare. simpl.
    by rewrite compare_variable_length_unhandled_l.
Qed.

(** C9: the [try] of the sampler guards the call only.  When the first
    callable of a functional value returns, on every probe tuple, an
    object other than [None] whose type is not bool, int or list (a float,
    say), the sample is recorded and composing its signature raises the
    unhandled-type error, which [_property_signature_lambda] and
    [property_signature_value] let through in both modes. *)
Theorem lambda_unhandled_result_raises
    (value output_value : Value) (fixed_length : bool)
    (lambda_fn : entry) (fns : list entry) (o0 : pyobj) :
  0 < num_free_variables value →
  (1 ≤ num_examples value)%nat →
  values value = lambda_fn :: fns →
  getitem output_value 0 = Ok o0 →
  (∀ inputs_list, inputs_list ∈ probe_tuples value →
     ∃ o, call lambda_fn inputs_list = Returns o ∧ o ≠ PNone ∧
          handled_type (type_of o) = false) →
  (∃ io inputs o rest,
     _run_lambda value = Ok (((inputs, o) :: rest) :: io) ∧
     handled_type (type_of o) = false) ∧
  raises_unhandled_type
    (_property_signature_lambda value output_value fixed_length) ∧
  raises_unhandled_type
    (property_signature_value value output_value fixed_length).
Proof.
  intros Hpos Hn Hvals Hout Hret.
  destruct (product_repeat_first (Z.to_nat (num_free_variables value)))
    as [probes Hprobes].
  set (p0 := replicate (Z.to_nat (num_free_variables value)) (PBool false))
    in Hprobes.
  destruct (Hret p0) as (o & Hcall & Hnone & Ho).
  { unfold probe_tuples. rewrite Hprobes. left. }
  assert (Hrun : ∃ rest io,
    _run_lambda value = Ok (((p0, o) :: rest) :: io)).
  { rewrite run_lambda_collect by done. rewrite Hvals.
    destruct (num_examples value) as [|n]; [lia|].
    unfold probe_tuples. rewrite Hprobes. cbn [replicate collect app].
    rewrite samples_of_cons. unfold samples_of at 1. simpl. rewrite Hcall.
    destruct o; try done; simpl; by eexists _, _. }
  destruct Hrun as (rest & io & Hrun).
  assert (Hl : _property_signature_lambda value output_value fixed_length
               = Err (NotImplementedError (type_of o))).
  { unfold _property_signature_lambda, _property_signature_lambda_with.
    rewrite Hrun. cbn [rbind forallb]. rewrite bool_decide_false by done.
    cbn [andb]. unfold enumerate. cbn [length seq]. simpl zip.
    cbn [sum_lists map_result fst snd].
    by rewrite (sample_signature_unhandled _ _ _ _ _ _ o0). }
  split; [by exists io, p0, o, rest|].
  split; [by eexists|].
  unfold property_signature_value.
  replace (num_free_variables value =? 0) with false
    by (symmetry; apply Z.eqb_neq; lia).
  destruct fixed_length; simpl; rewrite Hl; by eexists.
Qed.

Lemma lambda_unhandled_result_raises_witness :
  (∃ io inputs o rest,
     _run_lambda (mkValue [Fn returns_float] 1 1)
       = Ok (((inputs, o) :: rest) :: io) ∧
     handled_type (type_of o) = false) ∧
  raises_unhandled_type
    (_property_signature_lambda
       (mkValue [Fn returns_float] 1 1) (OutputValue [PInt 1]) true) ∧
  raises_unhandled_type
    (property_signature_value
       (mkValue [Fn returns_float] 1 1) (OutputValue [PInt 1]) true).
Proof.
  apply (lambda_unhandled_result_raises
           (mkValue [Fn returns_float] 1 1) (OutputValue [PInt 1]) true
           (Fn returns_float) [] (PInt 1)).
  - simpl. lia.
  - simpl. lia.
  - reflexivity.
  - reflexivity.
  - intros inputs_list _. exists (PFloat (3 # 2)). by repeat split.
Defined.

(** ** One global width *)

Lemma enumerate_lookup {A} (l : list A) (k : nat) :
  enumerate l !! k = (λ a, (k, a)) <$> l !! k.
Proof.
  unfold enumerate. rewrite lookup_zip_with.
  destruct (l !! k) as [a|] eqn:E; simpl.
  - rewrite lookup_seq_lt by (by eapply lookup_lt_Some). reflexivity.
  - rewrite lookup_seq_ge by (by apply lookup_ge_None). reflexivity.
Qed.

Lemma getitem_concrete (v : Value) (i : nat) :
  concrete_entries v → (i < length (values v))%nat →
  ∃ o, getitem v i = Ok o ∧ supported o.
Proof.
  intros Hc Hi. unfold getitem, py_index.
  destruct (lookup_lt_is_Some_2 (values v) i Hi) as [e He]. rewrite He.
  unfold concrete_entries in Hc. rewrite Forall_forall in Hc.
  destruct (Hc e) as (o & -> & Ho); [by eapply list_elem_of_lookup_2|].
  by exists o.
Qed.

Lemma sample_signature_fixed_length (value output_value : Value) (i : nat)
    (inputs : list pyobj) (o oi : pyobj) :
  getitem output_value i = Ok oi → supported oi → supported o →
  Forall supported inputs → (1 ≤ length inputs)%nat →
  ∃ s, sample_signature value output_value true i (inputs, o) = Ok s ∧
       length s = (4 + 119 + 769)%nat.
Proof.
  intros Hi Hoi Ho Hin Hlen. unfold sample_signature. rewrite Hi.
  destruct (compare_fixed_length o oi Ho Hoi) as (c & Hc & Hcl).
  destruct (single_example_fixed_length inputs o Hin Hlen Ho)
    as (s & Hs & Hsl).
  cbn [rbind]. rewrite Hc. cbn [rbind]. rewrite Hs. cbn [rbind].
  eexists. split; [reflexivity|].
  rewrite !length_app, length_map, Hcl, Hsl. reflexivity.
Qed.

Section one_width.
Variables value output_value : Value.
Hypothesis value_wf : Value_wf value.
Hypothesis output_wf : Value_wf output_value.
Hypothesis same_examples : num_examples value = num_examples output_value.
Hypothesis output_concrete : concrete_entries output_value.

Lemma output_getitem (i : nat) :
  (i < num_examples value)%nat →
  ∃ o, getitem output_value i = Ok o ∧ supported o.
Proof.
  intros Hi. apply getitem_concrete; [done|].
  destruct output_wf as [<- _]. lia.
Qed.

(** The concrete block has width 222. *)
Lemma concrete_value_fixed_length :
  num_free_variables value = 0 → concrete_entries value →
  ∃ sig, _property_signature_concrete_value value output_value true = Ok sig ∧
         length sig = 222%nat.
Proof.
  intros Hz Hcv. destruct value_wf as [Hv Hv1].
  unfold _property_signature_concrete_value. rewrite Hz.
  change (0 =? 0) with true. cbn [py_assert rbind].
  destruct (map_result_Forall
    (λ i, let* v := getitem value i in
          let* o := getitem output_value i in
          _property_signature_single_object v o true)
    (λ s, length s = 222%nat) (seq 0 (num_examples output_value)))
    as (sigs & -> & Hall & Hlen).
  { apply Forall_forall. intros i [_ Hi]%elem_of_seq. simpl.
    destruct (getitem_concrete value i Hcv) as (v & -> & Hvs); [lia|].
    destruct (output_getitem i) as (o & -> & Hos); [lia|].
    by apply single_object_fixed_length. }
  cbn [rbind]. rewrite length_seq in Hlen.
  destruct (reduce_across_examples_columns sigs 222) as (res & -> & Hres & _).
  - destruct sigs; [simpl in Hlen; lia | done].
  - exact Hall.
  - by exists res.
Qed.

(** Every recorded sample of a lambda has a signature of width 892. *)
Lemma lambda_samples_fixed_length (k : nat) (fn : entry) :
  0 < num_free_variables value → lambda_results_supported value →
  values value !! k = Some fn →
  ∃ bs, map_result (sample_signature value output_value true k)
          (samples_of fn (probe_tuples value)) = Ok bs ∧
        Forall (λ s, length s = 892%nat) bs.
Proof.
  intros Hpos Hres Hfn. destruct value_wf as [Hv _].
  destruct (output_getitem k) as (ok & Hok & Hoks).
  { apply lookup_lt_Some in Hfn. lia. }
  destruct (map_result_Forall
    (sample_signature value output_value true k)
    (λ s, length s = 892%nat) (samples_of fn (probe_tuples value)))
    as (bs & Hbs & Hbl & _); [|by exists bs].
  apply Forall_forall. intros [inputs o] Hs.
  apply samples_of_elem in Hs as (Hin & Hcall & Hnone).
  destruct (probe_tuples_supported value inputs Hpos Hin) as [Hsup Hlen].
  apply (sample_signature_fixed_length _ _ _ _ _ ok); try done.
  eapply Hres; try done. by eapply list_elem_of_lookup_2.
Qed.

(** The lambda block has width 892. *)
Lemma lambda_fixed_length :
  0 < num_free_variables value → lambda_results_supported value →
  ∃ sig, _property_signature_lambda value output_value true = Ok sig ∧
         length sig = 892%nat.
Proof.
  intros Hpos Hres. destruct value_wf as [Hv _].
  unfold _property_signature_lambda, _property_signature_lambda_with.
  rewrite run_lambda_collect, Hv, collect_replicate by done. cbn [rbind].
  set (io := map (λ fn, samples_of fn (probe_tuples value)) (values value)).
  destruct (forallb _ io) eqn:Hempty.
  { eexists. split; [reflexivity|]. by rewrite length_replicate. }
  destruct (sum_lists_Forall
    (λ ip : nat * list io_pair,
       map_result (sample_signature value output_value true ip.1) ip.2)
    (λ s, length s = 892%nat) (enumerate io)) as (sigs & Hsigs & Hall).
  { apply Forall_forall. intros [i pairs] Hip. simpl.
    apply list_elem_of_lookup in Hip as [k Hk].
    rewrite enumerate_lookup in Hk.
    destruct (io !! k) as [pairs'|] eqn:Hio; [|done].
    simpl in Hk. injection Hk as <- <-.
    subst io. rewrite list_lookup_fmap in Hio.
    destruct (values value !! k) as [fn|] eqn:Hfn; [|done].
    simpl in Hio. injection Hio as <-.
    by apply lambda_samples_fixed_length. }
  rewrite Hsigs. cbn [rbind].
  destruct (reduce_across_examples_columns sigs 892) as (res & -> & Hlen & _).
  - apply not_true_iff_false in Hempty.
    rewrite forallb_forall in Hempty.
    destruct (decide (sigs = [])) as [->|]; [|done]. exfalso.
    apply Hempty. intros pairs Hp%list_elem_of_In.
    apply bool_decide_eq_true.
    destruct pairs as [|pair pairs]; [done|]. exfalso.
    apply list_elem_of_lookup in Hp as [k Hk].
    assert (Hin : (k, pair :: pairs) ∈ enumerate io).
    { apply (list_elem_of_lookup_2 _ k). by rewrite enumerate_lookup, Hk. }
    apply (sum_lists_nonempty _ _ [] _ Hsigs Hin); [|done].
    intros bs Hbs. simpl in Hbs.
    destruct (sample_signature value output_value true k pair); [|done].
    destruct (map_result _ pairs); [|done].
    simpl in Hbs. by injection Hbs as <-.
  - exact Hall.
  - by exists res.
Qed.

(** C1: for a concrete value (no free variables, entries bool, int or
    list) and for a functional value (positive arity, results of the
    callables on the probe tuples [None], bool, int or list), with an
    output value of as many examples, at least one, over bool, int and
    list, the fixed-length [property_signature_value] returns a vector
    of [VALUE_SIGNATURE_LENGTH] tuples, the concrete-block width plus the
    lambda-block width, whatever the kind, number of examples, arity and
    contents. *)
Theorem property_signature_value_fixed_width :
  (num_free_variables value = 0 ∧ concrete_entries value) ∨
  (0 < num_free_variables value ∧ lambda_results_supported value) →
  ∃ sig, property_signature_value value output_value true = Ok sig ∧
         length sig = VALUE_SIGNATURE_LENGTH ∧
         VALUE_SIGNATURE_LENGTH
         = (_SIGNATURE_LENGTH_CONCRETE_VALUE
            + _SIGNATURE_LENGTH_LAMBDA_VALUE)%nat.
Proof.
  intros [[Hz Hcv] | [Hpos Hres]];
    unfold property_signature_value; cbn [negb].
  - destruct (concrete_value_fixed_length Hz Hcv) as (c & Hc & Hlen).
    rewrite Hz. change (negb (0 =? 0)) with false. cbv iota.
    rewrite Hc. cbn [rbind].
    eexists. split; [reflexivity|]. split; [|reflexivity].
    rewrite length_app, length_replicate, Hlen. reflexivity.
  - destruct (lambda_fixed_length Hpos Hres) as (l & Hl & Hlen).
    replace (num_free_variables value =? 0) with false
      by (symmetry; apply Z.eqb_neq; lia).
    cbn [negb]. rewrite Hl. cbn [rbind].
    eexists. split; [reflexivity|]. split; [|reflexivity].
    rewrite length_app, length_replicate, Hlen. reflexivity.
Qed.

End one_width.

Lemma add_10_supported : lambda_results_supported _LAMBDA_VALUE.
Proof.
  intros fn inputs o Hfn%list_elem_of_singleton _ Hcall _. subst fn.
  simpl in Hcall. unfold add_10 in Hcall.
  destruct inputs as [|[] [|]]; try discriminate Hcall;
    by injection Hcall as <-.
Qed.

Lemma property_signature_value_fixed_width_witness :
  (∃ sig,
     property_signature_value
       (InputVariable [PList [1; 2; 4; 7]; PInt 3] "in1")
       (OutputValue [PList [4; 5; 7; 10]; PBool true]) true = Ok sig ∧
     length sig = VALUE_SIGNATURE_LENGTH ∧
     VALUE_SIGNATURE_LENGTH
     = (_SIGNATURE_LENGTH_CONCRETE_VALUE
        + _SIGNATURE_LENGTH_LAMBDA_VALUE)%nat) ∧
  (∃ sig,
     property_signature_value _LAMBDA_VALUE (OutputValue [PInt 1]) true
       = Ok sig ∧
     length sig = VALUE_SIGNATURE_LENGTH ∧
     VALUE_SIGNATURE_LENGTH
     = (_SIGNATURE_LENGTH_CONCRETE_VALUE
        + _SIGNATURE_LENGTH_LAMBDA_VALUE)%nat).
Proof.
  split.
  - apply (property_signature_value_fixed_width
             (InputVariable [PList [1; 2; 4; 7]; PInt 3] "in1")
             (OutputValue [PList [4; 5; 7; 10]; PBool true])).
    + split; [reflexivity | simpl; lia].
    + split; [reflexivity | simpl; lia].
    + reflexivity.
    + repeat constructor; by eexists.
    + left. split; [reflexivity|]. repeat constructor; by eexists.
  - apply (property_signature_value_fixed_width
             _LAMBDA_VALUE (OutputValue [PInt 1])).
    + split; [reflexivity | simpl; lia].
    + split; [reflexivity | simpl; lia].
    + reflexivity.
    + repeat constructor; by eexists.
    + right. split; [simpl; lia | exact add_10_supported].
Defined.

Example lambda_value_signature_length :
  rmap length
    (property_signature_value _LAMBDA_VALUE (OutputValue [PInt 1]) true)
  = Ok 1114%nat.
Proof. vm_compute. reflexivity. Qed.

(** * Further properties of the module *)

(** ** Reduction engine: contract violations and the shape of a tuple *)

(** X1: The reduction refuses an empty list of signatures and signatures of
    different lengths: both [assert]s raise AssertionError. *)
Theorem reduce_across_examples_rejects
    (signatures : list (list (option bool))) :
  match signatures with
  | [] => True
  | first :: rest => Exists (λ s, length s ≠ length first) rest
  end →
  _reduce_across_examples signatures = Err AssertionError.
Proof.
  destruct signatures as [|s0 rest]; [reflexivity|]. intros Hex.
  unfold _reduce_across_examples. cbn [length Nat.eqb negb py_assert rbind].
  change (py_index (s0 :: rest) 0) with (Ok s0). cbn [rbind].
  replace (forallb _ (s0 :: rest)) with false; [reflexivity|].
  symmetry. apply not_true_iff_false. rewrite forallb_forall.
  intros Hall. apply Exists_exists in Hex as (s & Hs & Hne).
  apply Hne, Nat.eqb_eq, Hall. right. by apply list_elem_of_In.
Qed.

Lemma reduce_across_examples_rejects_witness :
  _reduce_across_examples [] = Err AssertionError ∧
  _reduce_across_examples [[Some true; None]; [Some true]]
  = Err AssertionError.
Proof.
  split.
  - apply (reduce_across_examples_rejects []). exact I.
  - apply (reduce_across_examples_rejects [[Some true; None]; [Some true]]).
    left. simpl. lia.
Defined.

Lemma map_result_lookup_Some {A B} (f : A → result B) (l : list A)
    (res : list B) (j : nat) (a : A) :
  map_result f l = Ok res → l !! j = Some a →
  ∃ b, res !! j = Some b ∧ f a = Ok b.
Proof.
  revert res j. induction l as [|c cs IH]; intros res j Hres Hj; [done|].
  simpl in Hres. destruct (f c) as [rc|] eqn:Hc; [|done].
  destruct (map_result f cs) as [rs|]; [|done].
  simpl in Hres. injection Hres as <-.
  destruct j as [|j]; simpl in *.
  - injection Hj as <-. by exists rc.
  - by apply IH.
Qed.

Lemma reduce_across_examples_lookup
    (signatures : list (list (option bool))) (L : nat) :
  signatures ≠ [] → Forall (λ s, length s = L) signatures →
  ∃ res, _reduce_across_examples signatures = Ok res ∧ length res = L ∧
    ∀ j, (j < L)%nat →
      ∃ r, res !! j = Some r ∧
           reduce_column (length signatures) (column j signatures) = Ok r.
Proof.
  intros Hne Hall.
  destruct (reduce_across_examples_columns signatures L Hne Hall)
    as (res & Hres & Hlen & _).
  exists res. split; [done|]. split; [done|]. intros j Hj.
  unfold _reduce_across_examples in Hres.
  destruct (py_assert (negb (length signatures =? 0)%nat)); [|done].
  destruct (py_index signatures 0); [|done].
  cbn [rbind] in Hres. destruct (py_assert _); [|done]. cbn [rbind] in Hres.
  apply (map_result_lookup_Some _ _ _ j (column j signatures) Hres).
  by apply (zip_star_lookup signatures L j).
Qed.

Lemma truediv_self (n : nat) : n ≠ O → py_truediv n n = Ok (1 # 1)%Q.
Proof.
  intros Hn. destruct n as [|n]; [done|]. unfold py_truediv.
  f_equal. change (1 # 1)%Q with (Qred (1 # 1)). apply Qred_complete.
  unfold Qeq. simpl Qnum. simpl Qden.
  rewrite <- Pos.of_nat_succ, Zpos_P_of_succ_nat. lia.
Qed.

Lemma column_constant (signatures : list (list (option bool))) (j : nat)
    (e : option bool) :
  Forall (λ s, s !! j = Some e) signatures →
  column j signatures = replicate (length signatures) e.
Proof.
  induction 1 as [|s rest Hs _ IH]; [done|].
  unfold column in *. simpl. by rewrite Hs, IH.
Qed.

Lemma applicable_replicate (n : nat) (b : bool) :
  applicable (replicate n (Some b)) = replicate n b.
Proof.
  unfold applicable. induction n as [|n IH]; [done|].
  cbn [replicate]. change (omap id (Some b :: replicate n (Some b)))
    with (b :: omap id (replicate n (Some b))). by rewrite IH.
Qed.

Lemma sum_bools_replicate (n : nat) (b : bool) :
  sum_bools (replicate n b) = if b then n else O.
Proof.
  unfold sum_bools. induction n as [|n IH]; [by destruct b|].
  cbn [replicate]. rewrite filter_cons. destruct b.
  - rewrite decide_True by done. cbn [length]. by rewrite IH.
  - rewrite decide_False by done. exact IH.
Qed.

Lemma reduce_constant_column
    (signatures : list (list (option bool))) (L j : nat) (b : bool) :
  signatures ≠ [] → Forall (λ s, length s = L) signatures →
  Forall (λ s, s !! j = Some (Some b)) signatures →
  ∃ res, _reduce_across_examples signatures = Ok res ∧
         res !! j = Some (1 # 1, b, negb b, if b then 1 # 1 else 0 # 1)%Q.
Proof.
  intros Hne Hall Hb.
  destruct (reduce_across_examples_lookup signatures L Hne Hall)
    as (res & Hres & _ & Hcols).
  exists res. split; [done|].
  assert (Hn : length signatures ≠ O) by (by destruct signatures).
  assert (Hj : (j < L)%nat).
  { destruct signatures as [|s rest]; [done|].
    apply Forall_cons in Hall as [<- _]. apply Forall_cons in Hb as [Hs _].
    by eapply lookup_lt_Some. }
  destruct (Hcols j Hj) as (r & Hrj & Hr).
  etrans; [exact Hrj|]. f_equal.
  rewrite (column_constant _ _ _ Hb) in Hr.
  unfold reduce_column in Hr. fold (applicable (replicate (length signatures) (Some b))) in Hr.
  rewrite applicable_replicate, sum_bools_replicate, length_replicate in Hr.
  replace (negb (length signatures =? 0)%nat) with true in Hr
    by (symmetry; apply negb_true_iff, Nat.eqb_neq; exact Hn).
  rewrite (truediv_self _ Hn) in Hr.
  destruct b.
  - rewrite (truediv_self _ Hn) in Hr. by injection Hr as <-.
  - rewrite (truediv_zero _ Hn) in Hr. by injection Hr as <-.
Qed.

(** X2: A position where every signature holds the same boolean [b] reduces to
    full coverage, all_true = [b], all_false = [not b] and frac_true 1 or
    0. *)
Theorem reduce_constant_position
    (signatures : list (list (option bool))) (L j : nat) (b : bool) :
  signatures ≠ [] → Forall (λ s, length s = L) signatures →
  Forall (λ s, s !! j = Some (Some b)) signatures →
  ∃ res, _reduce_across_examples signatures = Ok res ∧
         res !! j = Some (1 # 1, b, negb b, if b then 1 # 1 else 0 # 1)%Q.
Proof. apply reduce_constant_column. Qed.

Lemma reduce_constant_position_witness :
  ∃ res,
    _reduce_across_examples
      [[Some true; Some false]; [None; Some false]; [Some true; Some false]]
      = Ok res ∧
    res !! 1%nat = Some (1 # 1, false, true, 0 # 1)%Q.
Proof.
  apply (reduce_constant_position
           [[Some true; Some false]; [None; Some false];
            [Some true; Some false]] 2 1 false).
  - discriminate.
  - repeat constructor.
  - repeat constructor.
Defined.

Lemma Qdiv_nat (a n : nat) :
  n ≠ O →
  (inject_Z (Z.of_nat a) / inject_Z (Z.of_nat n) == Z.of_nat a # Pos.of_nat n)%Q.
Proof.
  intros Hn. destruct n as [|n]; [done|].
  rewrite (Qmake_Qdiv (Z.of_nat a) (Pos.of_nat (S n))).
  rewrite <- Pos.of_nat_succ, Zpos_P_of_succ_nat, <- Nat2Z.inj_succ.
  reflexivity.
Qed.

Lemma Zpos_of_nat (n : nat) : n ≠ O → Z.pos (Pos.of_nat n) = Z.of_nat n.
Proof. intros Hn. rewrite <- positive_nat_Z, Nat2Pos.id by done. done. Qed.

Lemma Qdiv_nat_range (a n : nat) :
  n ≠ O → (a ≤ n)%nat →
  (0 <= inject_Z (Z.of_nat a) / inject_Z (Z.of_nat n) <= 1)%Q.
Proof.
  intros Hn Ha. rewrite Qdiv_nat by done.
  unfold Qle. simpl. rewrite Zpos_of_nat by done. lia.
Qed.

Lemma Qdiv_nat_one (a n : nat) :
  n ≠ O →
  (inject_Z (Z.of_nat a) / inject_Z (Z.of_nat n) == 1)%Q ↔ a = n.
Proof.
  intros Hn. rewrite Qdiv_nat by done.
  unfold Qeq. simpl. rewrite Zpos_of_nat by done. lia.
Qed.

Lemma Qdiv_nat_zero (a n : nat) :
  n ≠ O →
  (inject_Z (Z.of_nat a) / inject_Z (Z.of_nat n) == 0)%Q ↔ a = O.
Proof.
  intros Hn. rewrite Qdiv_nat by done. unfold Qeq. simpl. lia.
Qed.

Lemma sum_bools_le (l : list bool) : (sum_bools l ≤ length l)%nat.
Proof. apply length_filter. Qed.

Lemma sum_bools_all_true (l : list bool) :
  sum_bools l = length l ↔ Forall (λ b, b = true) l.
Proof.
  unfold sum_bools. induction l as [|b l IH]; [by split|].
  rewrite filter_cons. destruct b.
  - rewrite decide_True by done. cbn [length]. rewrite Forall_cons.
    split; [intros H; split; [done|]; apply IH; lia|].
    intros [_ H]. f_equal. by apply IH.
  - rewrite decide_False by done. cbn [length]. rewrite Forall_cons.
    pose proof (length_filter (λ b, b = true) l). split; [lia | by intros []].
Qed.

Lemma sum_bools_all_false (l : list bool) :
  sum_bools l = O ↔ Forall (λ b, b = false) l.
Proof.
  unfold sum_bools. induction l as [|b l IH]; [by split|].
  rewrite filter_cons. destruct b.
  - rewrite decide_True by done. cbn [length]. rewrite Forall_cons.
    split; [lia | by intros []].
  - rewrite decide_False by done. rewrite Forall_cons, IH. tauto.
Qed.

Lemma applicable_length (col : list (option bool)) :
  (length (applicable col) ≤ length col)%nat.
Proof.
  unfold applicable. induction col as [|[b|] col IH]; csimpl; lia.
Qed.

Lemma applicable_full (col : list (option bool)) :
  length (applicable col) = length col ↔ Forall is_Some col.
Proof.
  unfold applicable. induction col as [|[b|] col IH]; csimpl.
  - by split.
  - rewrite Forall_cons. split.
    + intros H. split; [by eexists|]. apply IH. lia.
    + intros [_ H]. f_equal. by apply IH.
  - pose proof (applicable_length col) as Hl. unfold applicable in Hl.
    rewrite Forall_cons. split; [lia|]. intros [[? ?] _]. done.
Qed.

(** X3: Every reduced tuple is well formed: coverage and frac_true lie in
    [0, 1], all_true and all_false are never both set, and a position with
    coverage 0 carries the neutral (False, False, 0.5). *)
Theorem reduced_tuple_invariant
    (signatures : list (list (option bool))) (L : nat) :
  signatures ≠ [] → Forall (λ s, length s = L) signatures →
  ∃ res, _reduce_across_examples signatures = Ok res ∧
    ∀ j r, res !! j = Some r →
      let '(coverage, all_true, all_false, frac_true) := r in
      (0 <= coverage <= 1)%Q ∧ (0 <= frac_true <= 1)%Q ∧
      all_true && all_false = false ∧
      ((coverage == 0)%Q →
       all_true = false ∧ all_false = false ∧ frac_true = (1 # 2)%Q).
Proof.
  intros Hne Hall.
  destruct (reduce_across_examples_columns signatures L Hne Hall)
    as (res & Hres & Hlen & Hcols).
  exists res. split; [done|]. intros j r Hj.
  assert (Hn : length signatures ≠ O) by (by destruct signatures).
  destruct (Hcols j) as (r' & Hr' & Hred & _).
  { rewrite <- Hlen. by eapply lookup_lt_Some. }
  pose proof (eq_trans (eq_sym Hr') Hj) as E. injection E as ->.
  destruct r as [[[cov at'] af] frac]. unfold is_reduction in Hred.
  destruct Hred as (Hcov & Hfrac & Hat & Haf).
  set (col := column j signatures) in *.
  assert (Hcl : length col = length signatures)
    by (subst col; unfold column; by rewrite length_map).
  pose proof (applicable_length col) as Hal.
  destruct (applicable col) as [|b bs] eqn:Happ.
  - subst frac. split; [rewrite Hcov; apply Qdiv_nat_range; simpl; lia|].
    split; [split; discriminate|].
    assert (at' = false) as ->.
    { destruct at'; [|done]. by destruct Hat as [Hat _]; specialize (Hat eq_refl). }
    assert (af = false) as ->.
    { destruct af; [|done]. by destruct Haf as [Haf _]; specialize (Haf eq_refl). }
    done.
  - pose proof (sum_bools_le (b :: bs)) as Hs.
    split; [rewrite Hcov; apply Qdiv_nat_range; lia|].
    split; [rewrite Hfrac; by apply Qdiv_nat_range|].
    split.
    + destruct at', af; try done.
      destruct Hat as [Hat _], Haf as [Haf _].
      specialize (Hat eq_refl). specialize (Haf eq_refl).
      rewrite Hat in Haf. discriminate Haf.
    + intros H0. rewrite Hcov in H0.
      apply Qdiv_nat_zero in H0; [|done]. discriminate H0.
Qed.

Lemma reduced_tuple_invariant_witness :
  ∃ res,
    _reduce_across_examples [[Some true; None]; [Some false; None]] = Ok res ∧
    ∀ j r, res !! j = Some r →
      let '(coverage, all_true, all_false, frac_true) := r in
      (0 <= coverage <= 1)%Q ∧ (0 <= frac_true <= 1)%Q ∧
      all_true && all_false = false ∧
      ((coverage == 0)%Q →
       all_true = false ∧ all_false = false ∧ frac_true = (1 # 2)%Q).
Proof.
  apply (reduced_tuple_invariant [[Some true; None]; [Some false; None]] 2).
  - discriminate.
  - repeat constructor.
Defined.

(** X4: What the flags of a reduced tuple mean: all_true holds exactly when
    some entry of the column is not [None] and every such entry is [True];
    all_false likewise with [False]; coverage is 1 exactly when no entry of
    the column is [None]. *)
Theorem reduced_flags_meaning
    (signatures : list (list (option bool))) (L j : nat) :
  signatures ≠ [] → Forall (λ s, length s = L) signatures → (j < L)%nat →
  ∃ res coverage all_true all_false frac_true,
    _reduce_across_examples signatures = Ok res ∧
    res !! j = Some (coverage, all_true, all_false, frac_true) ∧
    (all_true = true ↔
       applicable (column j signatures) ≠ [] ∧
       Forall (λ b, b = true) (applicable (column j signatures))) ∧
    (all_false = true ↔
       applicable (column j signatures) ≠ [] ∧
       Forall (λ b, b = false) (applicable (column j signatures))) ∧
    ((coverage == 1)%Q ↔ Forall is_Some (column j signatures)).
Proof.
  intros Hne Hall Hj.
  destruct (reduce_across_examples_columns signatures L Hne Hall)
    as (res & Hres & Hlen & Hcols).
  assert (Hn : length signatures ≠ O) by (by destruct signatures).
  destruct (Hcols j Hj) as ([[[cov at'] af] frac] & Hr & Hred & _).
  exists res, cov, at', af, frac. split; [done|]. split; [done|].
  unfold is_reduction in Hred. destruct Hred as (Hcov & Hfrac & Hat & Haf).
  set (col := column j signatures) in *.
  assert (Hcl : length col = length signatures)
    by (subst col; unfold column; by rewrite length_map).
  rewrite Hat, Haf, Hcov, Qdiv_nat_one, <- Hcl, applicable_full by done.
  split; [|split; [|done]].
  - destruct (applicable col) as [|b bs] eqn:Happ.
    + subst frac. split; [discriminate | by intros []].
    + rewrite Hfrac, Qdiv_nat_one, sum_bools_all_true by done.
      split; [by split | by intros [_ ?]].
  - destruct (applicable col) as [|b bs] eqn:Happ.
    + subst frac. split; [discriminate | by intros []].
    + rewrite Hfrac, Qdiv_nat_zero, sum_bools_all_false by done.
      split; [by split | by intros [_ ?]].
Qed.

Lemma reduced_flags_meaning_witness :
  ∃ res coverage all_true all_false frac_true,
    _reduce_across_examples [[Some true; None]; [Some true; Some false]]
      = Ok res ∧
    res !! 0%nat = Some (coverage, all_true, all_false, frac_true) ∧
    (all_true = true ↔
       applicable (column 0 [[Some true; None]; [Some true; Some false]]) ≠ [] ∧
       Forall (λ b, b = true)
         (applicable (column 0 [[Some true; None]; [Some true; Some false]]))) ∧
    (all_false = true ↔
       applicable (column 0 [[Some true; None]; [Some true; Some false]]) ≠ [] ∧
       Forall (λ b, b = false)
         (applicable (column 0 [[Some true; None]; [Some true; Some false]]))) ∧
    ((coverage == 1)%Q ↔
       Forall is_Some (column 0 [[Some true; None]; [Some true; Some false]])).
Proof.
  apply (reduced_flags_meaning [[Some true; None]; [Some true; Some false]] 2 0).
  - discriminate.
  - repeat constructor.
  - lia.
Defined.

(** ** Fixed-length layout *)

(** X5: In fixed-length mode the basic signature of a bool, int or list is its
    variable-length signature placed verbatim in the slot of its type, with
    [None] in the two other slots; the slot width recorded for the type
    (from the default value) is the width for every object of that type. *)
Theorem basic_signature_fixed_layout (x : pyobj) :
  supported x →
  ∃ v, _basic_signature_variable_length x = Ok v ∧
       dict_lookup (type_of x) _BASIC_SIGNATURE_LENGTH_BY_TYPE
         = Ok (length v) ∧
       _basic_signature x true =
       Ok (replicate (width_before (type_of x) _BASIC_SIGNATURE_LENGTH_BY_TYPE)
             None
           ++ map Some v
           ++ replicate (width_after (type_of x) _BASIC_SIGNATURE_LENGTH_BY_TYPE)
                None).
Proof.
  intros H.
  destruct (basic_signature_variable_length_ok x H) as (v & Hv & Hlen).
  exists v. split; [done|]. split; [done|].
  unfold _basic_signature. rewrite Hv.
  destruct x; try discriminate H; reflexivity.
Qed.

Lemma basic_signature_fixed_layout_witness :
  ∃ v, _basic_signature_variable_length (PInt 15) = Ok v ∧
       dict_lookup TInt _BASIC_SIGNATURE_LENGTH_BY_TYPE = Ok (length v) ∧
       _basic_signature (PInt 15) true =
       Ok (replicate 6 None ++ map Some v ++ replicate 81 None).
Proof. apply (basic_signature_fixed_layout (PInt 15)). reflexivity. Defined.

(** X6: In fixed-length mode the comparison of two handled objects is their
    variable-length comparison placed verbatim in the slot of their pair of
    types, with [None] in the eight other slots; the width recorded for the
    pair is the width for every two objects of those types. *)
Theorem compare_fixed_layout (x y : pyobj) :
  supported x → supported y →
  ∃ v, _compare_variable_length x y = Ok v ∧
       dict_lookup (type_of x, type_of y) _COMPARE_LENGTH_BY_TYPES
         = Ok (length v) ∧
       _compare x y true =
       Ok (replicate
             (width_before (type_of x, type_of y) _COMPARE_LENGTH_BY_TYPES) None
           ++ map Some v
           ++ replicate
                (width_after (type_of x, type_of y) _COMPARE_LENGTH_BY_TYPES)
                None).
Proof.
  intros Hx Hy.
  destruct (compare_variable_length_ok x y Hx Hy) as (v & Hv & Hlen).
  exists v. split; [done|]. split; [done|].
  unfold _compare. rewrite Hv.
  destruct x; try discriminate Hx; destruct y; try discriminate Hy;
    reflexivity.
Qed.

Lemma compare_fixed_layout_witness :
  ∃ v, _compare_variable_length (PInt 3) (PList [1; 5]) = Ok v ∧
       dict_lookup (TInt, TList) _COMPARE_LENGTH_BY_TYPES = Ok (length v) ∧
       _compare (PInt 3) (PList [1; 5]) true =
       Ok (replicate 12 None ++ map Some v ++ replicate 59 None).
Proof. by apply (compare_fixed_layout (PInt 3) (PList [1; 5])). Defined.

(** ** Same-type comparison: symmetry and meaning *)

(** X7: Comparing two ints: exactly one of equal, less, greater holds; the
    four distance tests are nested; the comparison in the other order is the
    same vector with less and greater exchanged. *)
Theorem compare_same_type_int (x y : Z) :
  ∃ eq lt gt d2 d5 d10 d100 sign,
    _compare_same_type (PInt x) (PInt y)
      = Ok [eq; lt; gt; d2; d5; d10; d100; sign] ∧
    _compare_same_type (PInt y) (PInt x)
      = Ok [eq; gt; lt; d2; d5; d10; d100; sign] ∧
    one_hot [eq; lt; gt] ∧
    implb eq d2 && implb d2 d5 && implb d5 d10 && implb d10 d100 = true ∧
    eq = bool_decide (x = y).
Proof.
  unfold _compare_same_type. cbn [type_of py_assert rbind].
  rewrite bool_decide_true by done. cbn [py_assert rbind].
  do 8 eexists. split; [reflexivity|]. split.
  - replace (y - x) with (- (x - y)) by lia. rewrite Z.abs_opp.
    rewrite (Z.eqb_sym y x), <- (Z.gtb_ltb x y), (Z.gtb_ltb y x).
    replace (eqb (y >=? 0) (x >=? 0)) with (eqb (x >=? 0) (y >=? 0))
      by (by destruct (x >=? 0), (y >=? 0)).
    reflexivity.
  - split; [|split].
    + unfold one_hot, sum_bools. rewrite Z.gtb_ltb.
      destruct (Z.eqb_spec x y), (Z.ltb_spec x y), (Z.ltb_spec y x);
        try lia; reflexivity.
    + destruct (Z.eqb_spec x y), (Z.ltb_spec (Z.abs (x - y)) 2),
        (Z.ltb_spec (Z.abs (x - y)) 5), (Z.ltb_spec (Z.abs (x - y)) 10),
        (Z.ltb_spec (Z.abs (x - y)) 100); simpl; lia || done.
    + destruct (Z.eqb_spec x y).
      * by rewrite bool_decide_true.
      * by rewrite bool_decide_false.
Qed.

Lemma forallb_zip_swap (f g : Z * Z → bool) (x y : list Z) :
  (∀ a b, f (a, b) = g (b, a)) →
  forallb f (zip y x) = forallb g (zip x y).
Proof.
  intros Hfg. revert y. induction x as [|a x IH]; intros [|b y]; simpl;
    try done.
  by rewrite Hfg, IH.
Qed.

(** X8: Comparing two lists in the other order gives the same vector with
    longer and shorter, elementwise <= and >=, subset and superset
    exchanged; set-equal is subset and superset together. *)
Theorem compare_same_type_list_swap (x y : list Z) :
  ∃ eq same longer shorter near le ge pre seteq sub sup,
    _compare_same_type (PList x) (PList y)
      = Ok [eq; same; longer; shorter; near; le; ge; pre; seteq; sub; sup] ∧
    _compare_same_type (PList y) (PList x)
      = Ok [eq; same; shorter; longer; near; ge; le; pre; seteq; sup; sub] ∧
    seteq = sub && sup ∧
    one_hot [same; longer; shorter] ∧
    implb eq (same && pre && seteq) = true.
Proof.
  unfold _compare_same_type. cbn [type_of py_assert rbind].
  rewrite bool_decide_true by done. cbn [py_assert rbind].
  do 11 eexists. split; [reflexivity|]. split; [|split; [|split]].
  - replace (Z.of_nat (length y) - Z.of_nat (length x))
      with (- (Z.of_nat (length x) - Z.of_nat (length y))) by lia.
    rewrite Z.abs_opp.
    rewrite (forallb_zip_swap (λ p, p.1 <=? p.2) (λ p, p.1 >=? p.2) x y),
      (forallb_zip_swap (λ p, p.1 >=? p.2) (λ p, p.1 <=? p.2) x y),
      (forallb_zip_swap (λ p, p.1 =? p.2) (λ p, p.1 =? p.2) x y).
    2:{ intros a b. apply Z.eqb_sym. }
    2:{ intros a b. simpl. by rewrite Z.geb_leb. }
    2:{ intros a b. simpl. by rewrite Z.geb_leb. }
    rewrite (Z.eqb_sym (Z.of_nat (length y))), !Z.gtb_ltb.
    unfold Zeqb_list.
    rewrite (bool_decide_ext (y = x) (x = y)) by done.
    rewrite (bool_decide_ext ((list_to_set y : gset Z) = list_to_set x)
               ((list_to_set x : gset Z) = list_to_set y)) by done.
    reflexivity.
  - set (X := list_to_set x : gset Z). set (Y := list_to_set y : gset Z).
    destruct (decide (X = Y)) as [E|NE].
    + rewrite E, !bool_decide_true by done. done.
    + rewrite (bool_decide_false (X = Y)) by done.
      symmetry. apply andb_false_iff.
      destruct (decide (X ⊆ Y)) as [HXY|HXY];
        [right | left]; apply bool_decide_eq_false; [|done].
      intros HYX. apply NE. by apply (anti_symm (⊆)).
  - unfold one_hot, sum_bools. rewrite Z.gtb_ltb.
    destruct (Z.eqb_spec (Z.of_nat (length x)) (Z.of_nat (length y))),
      (Z.ltb_spec (Z.of_nat (length y)) (Z.of_nat (length x))),
      (Z.ltb_spec (Z.of_nat (length x)) (Z.of_nat (length y)));
      try lia; reflexivity.
  - unfold Zeqb_list. destruct (decide (x = y)) as [->|Hne].
    + rewrite !bool_decide_true by done. rewrite Z.eqb_refl. simpl.
      induction y as [|a y IH]; [done|]. simpl. by rewrite Z.eqb_refl.
    + by rewrite bool_decide_false.
Qed.

(** X9: The elementwise-equal bit is what the source comment says: it holds
    exactly when one list is a prefix of the other. *)
Theorem compare_same_type_list_prefix (x y : list Z) :
  ∃ bits, _compare_same_type (PList x) (PList y) = Ok bits ∧
    (bits !! 7%nat = Some true ↔ x `prefix_of` y ∨ y `prefix_of` x).
Proof.
  eexists. split; [reflexivity|]. cbn [lookup list_lookup].
  change ([?a] !! 0%nat) with (Some a).
  revert y. induction x as [|a x IH]; intros [|b y]; simpl.
  - split; [intros _; left; by exists [] | done].
  - split; [intros _; left; by eexists | done].
  - split; [intros _; right; by eexists | done].
  - destruct (Z.eqb_spec a b) as [->|Hne]; simpl.
    + rewrite IH. split.
      * intros [[k ->] | [k ->]]; [left | right]; by exists k.
      * intros [[k Hk] | [k Hk]]; injection Hk as ->; [left | right];
          by exists k.
    + split; [done|]. intros [[k Hk] | [k Hk]]; by injection Hk.
Qed.

(** X10: The three set bits are statements about elements: the lists have the
    same elements, every element of [x] occurs in [y], every element of
    [y] occurs in [x]; repetitions and order do not matter. *)
Theorem compare_same_type_list_sets (x y : list Z) :
  ∃ bits, _compare_same_type (PList x) (PList y) = Ok bits ∧
    (bits !! 8%nat = Some true ↔ ∀ e, e ∈ x ↔ e ∈ y) ∧
    (bits !! 9%nat = Some true ↔ ∀ e, e ∈ x → e ∈ y) ∧
    (bits !! 10%nat = Some true ↔ ∀ e, e ∈ y → e ∈ x).
Proof.
  eexists. split; [reflexivity|]. cbn [lookup list_lookup].
  split; [|split].
  - split.
    + intros [= H%bool_decide_eq_true] e.
      by rewrite <- !(elem_of_list_to_set (C:=gset Z)), H.
    + intros H. f_equal. apply bool_decide_eq_true. apply set_eq. intros e.
      by rewrite !elem_of_list_to_set.
  - split.
    + intros [= H%bool_decide_eq_true] e He.
      apply (elem_of_list_to_set (C:=gset Z)), H, elem_of_list_to_set, He.
    + intros H. f_equal. apply bool_decide_eq_true. intros e.
      rewrite !elem_of_list_to_set. apply H.
  - split.
    + intros [= H%bool_decide_eq_true] e He.
      apply (elem_of_list_to_set (C:=gset Z)), H, elem_of_list_to_set, He.
    + intros H. f_equal. apply bool_decide_eq_true. intros e.
      rewrite !elem_of_list_to_set. apply H.
Qed.

(** ** Basic properties: what the bits mean *)

(** X11: The twelve int features: at most one of the four equality tests
    holds; exactly one of positive, zero, negative holds; the magnitude
    tests are nested (below 5, 10, 30, 100, 300) and the last feature is
    the negation of "below 300". *)
Theorem basic_properties_int (x : Z) :
  ∃ m1 z o t pos neg b5 b10 b30 b100 b300 ge300,
    _basic_properties (PInt x)
      = Ok [m1; z; o; t; pos; neg; b5; b10; b30; b100; b300; ge300] ∧
    (sum_bools [m1; z; o; t] ≤ 1)%nat ∧
    one_hot [pos; z; neg] ∧
    implb b5 b10 && implb b10 b30 && implb b30 b100 && implb b100 b300
      = true ∧
    ge300 = negb b300 ∧
    z = bool_decide (x = 0).
Proof.
  do 12 eexists. split; [reflexivity|].
  split; [|split; [|split; [|split]]].
  - unfold sum_bools.
    destruct (Z.eqb_spec x (-1)), (Z.eqb_spec x 0), (Z.eqb_spec x 1),
      (Z.eqb_spec x 2); simpl; lia.
  - unfold one_hot, sum_bools. rewrite Z.gtb_ltb.
    destruct (Z.eqb_spec x 0), (Z.ltb_spec 0 x), (Z.ltb_spec x 0);
      try lia; reflexivity.
  - destruct (Z.ltb_spec (Z.abs x) 5), (Z.ltb_spec (Z.abs x) 10),
      (Z.ltb_spec (Z.abs x) 30), (Z.ltb_spec (Z.abs x) 100),
      (Z.ltb_spec (Z.abs x) 300); simpl; lia || done.
  - rewrite Z.geb_leb. apply Z.leb_antisym.
  - destruct (Z.eqb_spec x 0).
    + by rewrite bool_decide_true.
    + by rewrite bool_decide_false.
Qed.

Lemma size_list_to_set_le (l : list Z) :
  (size (list_to_set l : gset Z) ≤ length l)%nat.
Proof.
  induction l as [|a l IH]; [done|].
  rewrite list_to_set_cons, size_union_alt, size_singleton.
  assert (size (list_to_set l ∖ {[a]} : gset Z)
          ≤ size (list_to_set l : gset Z))%nat
    by (apply subseteq_size, subseteq_difference_l; done).
  cbn [length]. lia.
Qed.

Lemma size_list_to_set_NoDup (l : list Z) :
  size (list_to_set l : gset Z) = length l ↔ NoDup l.
Proof.
  split; [|apply size_list_to_set].
  induction l as [|a l IH]; [constructor|]. intros Hs.
  rewrite list_to_set_cons in Hs. simpl in Hs.
  pose proof (size_list_to_set_le l) as Hle.
  destruct (decide (a ∈ l)) as [Hin|Hnin].
  - replace ({[a]} ∪ list_to_set l : gset Z) with (list_to_set l : gset Z)
      in Hs by set_solver.
    lia.
  - rewrite size_union, size_singleton in Hs by set_solver.
    constructor; [done|]. apply IH. lia.
Qed.

Lemma size_list_to_set_one (l : list Z) :
  size (list_to_set l : gset Z) = 1%nat ↔
  ∃ a, a ∈ l ∧ Forall (λ e, e = a) l.
Proof.
  split.
  - intros Hs. destruct (size_1_elem_of _ Hs) as [a Ha].
    exists a. split; [apply (elem_of_list_to_set (C:=gset Z)); set_solver|].
    apply Forall_forall. intros e He.
    apply (elem_of_list_to_set (C:=gset Z)) in He. set_solver.
  - intros (a & Ha & Hall). rewrite Forall_forall in Hall.
    replace (list_to_set l : gset Z) with ({[a]} : gset Z);
      [apply size_singleton|].
    apply set_eq. intros e. rewrite elem_of_list_to_set, elem_of_singleton.
    split; [by intros -> | apply Hall].
Qed.

(** X12: The list features say what their names say: the first holds exactly
    for a list in ascending order, the second for a list in descending
    order, the third for a non-empty list of one repeated value, and the
    fifth for a list without repetition. *)
Theorem basic_properties_list_meaning (x : list Z) :
  ∃ asc desc single half distinct,
    _basic_properties (PList x) = Ok [asc; desc; single; half; distinct] ∧
    (asc = true ↔ Sorted Z.le x) ∧
    (desc = true ↔ Sorted (flip Z.le) x) ∧
    (single = true ↔ ∃ a, a ∈ x ∧ Forall (λ e, e = a) x) ∧
    (distinct = true ↔ NoDup x).
Proof.
  do 5 eexists. split; [reflexivity|]. unfold Zeqb_list, num_unique_of.
  split; [|split; [|split]].
  - rewrite bool_decide_eq_true. split.
    + intros ->. apply Sorted_merge_sort. apply _.
    + intros Hs. apply (Sorted_unique Z.le); [done| |].
      * apply Sorted_merge_sort. apply _.
      * by rewrite merge_sort_Permutation.
  - rewrite bool_decide_eq_true. split.
    + intros ->. apply Sorted_reverse, Sorted_merge_sort. apply _.
    + intros Hs. rewrite <- (reverse_involutive x) at 1. f_equal.
      apply (Sorted_unique Z.le).
      * apply (Sorted_reverse (flip Z.le) x Hs).
      * apply Sorted_merge_sort. apply _.
      * by rewrite reverse_Permutation, merge_sort_Permutation.
  - rewrite Z.eqb_eq, <- size_list_to_set_one. lia.
  - rewrite Z.eqb_eq, <- size_list_to_set_NoDup. lia.
Qed.

(** ** Example-level composer *)

(** X13: In fixed-length mode only the first three inputs count: the signature
    of an example is the signature of the example cut to its first
    [FIXED_NUM_INPUTS] inputs, whatever the further inputs are. *)
Theorem single_example_truncates (inputs : list pyobj) (output : pyobj) :
  _property_signature_single_example inputs output true
  = _property_signature_single_example
      (take FIXED_NUM_INPUTS inputs) output true.
Proof.
  unfold _property_signature_single_example, FIXED_NUM_INPUTS.
  cbv beta zeta. cbn [negb].
  destruct (Nat.ltb_spec 3 (length inputs)) as [Hlt|Hge]; cbv iota.
  - rewrite length_take_le by lia. change (3 <? 3)%nat with false.
    cbv iota. rewrite length_take_le by lia. reflexivity.
  - rewrite (take_ge inputs 3) by lia.
    replace (3 <? length inputs)%nat with false; [reflexivity|].
    symmetry. apply Nat.ltb_ge. lia.
Qed.

(** X14: With one, two or three handled inputs the fixed-length signature of an
    example is the output's basic signature, then one block per input (the
    input's basic signature and its comparison with the output), then
    [None] for each missing input: 222 per input short of three. *)
Theorem single_example_padding (inputs : list pyobj) (output : pyobj) :
  Forall supported inputs → (1 ≤ length inputs ≤ 3)%nat → supported output →
  ∃ b blocks,
    _basic_signature output true = Ok b ∧
    sum_lists (λ i, _property_signature_single_object i output true) inputs
      = Ok blocks ∧
    length blocks = (222 * length inputs)%nat ∧
    _property_signature_single_example inputs output true
      = Ok (b ++ blocks ++ replicate (222 * (3 - length inputs)) None).
Proof.
  intros Hin Hk Ho.
  destruct (basic_signature_fixed_length output Ho) as (b & Hb & Hbl).
  destruct (sum_lists_length
    (λ i, _property_signature_single_object i output true) 222 inputs)
    as (ext & Hext & Hel).
  { eapply Forall_impl; [exact Hin|]. intros i Hi.
    by apply single_object_fixed_length. }
  exists b, ext. split; [done|]. split; [done|]. split; [done|].
  unfold _property_signature_single_example, FIXED_NUM_INPUTS.
  cbv beta zeta. cbn [negb].
  replace (3 <? length inputs)%nat with false
    by (symmetry; apply Nat.ltb_ge; lia).
  rewrite Hb. cbn [rbind].
  unfold _property_signature_single_object in Hext. rewrite Hext.
  cbn [rbind]. rewrite length_app, Hbl, Hel.
  replace (6 + 16 + 81 + 222 * length inputs - (6 + 16 + 81))%nat
    with (222 * length inputs)%nat by lia.
  destruct (length inputs) as [|[|[|[|k]]]] eqn:Ek; try lia.
  - cbn -[replicate]. by rewrite <- app_assoc.
  - cbn -[replicate]. by rewrite <- app_assoc.
  - cbn -[replicate]. by rewrite app_nil_r.
Qed.

Lemma single_example_padding_witness :
  ∃ b blocks,
    _basic_signature (PList [4; 5; 7; 10]) true = Ok b ∧
    sum_lists
      (λ i, _property_signature_single_object i (PList [4; 5; 7; 10]) true)
      [PList [1; 2; 4; 7]; PInt 3] = Ok blocks ∧
    length blocks = (222 * 2)%nat ∧
    _property_signature_single_example
      [PList [1; 2; 4; 7]; PInt 3] (PList [4; 5; 7; 10]) true
      = Ok (b ++ blocks ++ replicate (222 * (3 - 2)) None).
Proof.
  apply (single_example_padding
           [PList [1; 2; 4; 7]; PInt 3] (PList [4; 5; 7; 10])).
  - by repeat constructor.
  - simpl. lia.
  - reflexivity.
Defined.

(** ** Signatures of I/O examples *)

(** X15: An input value whose number of examples differs from the output's is
    refused by the [assert], in both modes. *)
Theorem io_examples_rejects_mismatch
    (input_values : list Value) (output_value : Value) (fixed_length : bool) :
  Exists (λ i_value, num_examples i_value ≠ num_examples output_value)
    input_values →
  property_signature_io_examples input_values output_value fixed_length
  = Err AssertionError.
Proof.
  intros Hex. unfold property_signature_io_examples.
  replace (forallb _ input_values) with false; [reflexivity|].
  symmetry. apply not_true_iff_false. rewrite forallb_forall. intros Hall.
  apply Exists_exists in Hex as (v & Hv & Hne).
  apply Hne, Nat.eqb_eq, Hall. by apply list_elem_of_In.
Qed.

Lemma io_examples_rejects_mismatch_witness :
  property_signature_io_examples
    [InputVariable [PInt 1; PInt 2] "in1"] (OutputValue [PInt 1]) true
  = Err AssertionError.
Proof.
  apply (io_examples_rejects_mismatch
           [InputVariable [PInt 1; PInt 2] "in1"] (OutputValue [PInt 1]) true).
  left. simpl. lia.
Defined.

Section io_width.
Variable input_values : list Value.
Variable output_value : Value.
Hypothesis output_wf : Value_wf output_value.
Hypothesis output_concrete : concrete_entries output_value.
Hypothesis some_input : (1 ≤ length input_values)%nat.
Hypothesis inputs_ok :
  Forall (λ v, Value_wf v ∧ concrete_entries v ∧
               num_examples v = num_examples output_value) input_values.

Lemma inputs_getitem (i : nat) :
  (i < num_examples output_value)%nat →
  ∃ objs, map_result (λ i_value, getitem i_value i) input_values = Ok objs ∧
          Forall supported objs ∧ length objs = length input_values.
Proof.
  intros Hi. apply map_result_Forall.
  eapply Forall_impl; [exact inputs_ok|].
  intros v ([Hv _] & Hc & Hsame). apply getitem_concrete; [done | lia].
Qed.

(** X16: For at least one input value, all inputs and the output concrete over
    bool, int and list with the same positive number of examples, the
    fixed-length signature of the I/O examples has
    [IO_EXAMPLES_SIGNATURE_LENGTH] tuples, whatever the number of inputs
    and of examples. *)
Theorem io_examples_fixed_width :
  ∃ sig, property_signature_io_examples input_values output_value true
           = Ok sig ∧
         length sig = IO_EXAMPLES_SIGNATURE_LENGTH.
Proof.
  unfold property_signature_io_examples.
  replace (forallb _ input_values) with true.
  2:{ symmetry. apply forallb_forall. intros v Hv%list_elem_of_In.
      rewrite Forall_forall in inputs_ok. apply Nat.eqb_eq.
      by apply inputs_ok. }
  cbn [py_assert rbind]. destruct output_wf as [Ho Ho1].
  destruct (map_result_Forall
    (λ example_index,
       let* inputs := map_result (λ i_value, getitem i_value example_index)
                        input_values in
       let* output := getitem output_value example_index in
       _property_signature_single_example inputs output true)
    (λ s, length s = 769%nat) (seq 0 (num_examples output_value)))
    as (sigs & -> & Hall & Hlen).
  { apply Forall_forall. intros i [_ Hi]%elem_of_seq. cbv beta.
    destruct (inputs_getitem i) as (objs & -> & Hobjs & Hol); [lia|].
    destruct (getitem_concrete output_value i output_concrete)
      as (o & -> & Hos); [lia|].
    cbn [rbind]. apply single_example_fixed_length; [done | lia | done]. }
  cbn [rbind]. rewrite length_seq in Hlen.
  destruct (reduce_across_examples_columns sigs 769) as (res & -> & Hres & _).
  - destruct sigs; [simpl in Hlen; lia | done].
  - exact Hall.
  - by exists res.
Qed.

End io_width.

Lemma io_examples_fixed_width_witness :
  ∃ sig,
    property_signature_io_examples
      [InputVariable [PList [1; 2; 4; 7]; PList [0; 0]] "in1";
       InputVariable [PInt 3; PInt (-6)] "in2"]
      (OutputValue [PList [4; 5; 7; 10]; PList [-6; -6]]) true = Ok sig ∧
    length sig = IO_EXAMPLES_SIGNATURE_LENGTH.
Proof.
  apply (io_examples_fixed_width
           [InputVariable [PList [1; 2; 4; 7]; PList [0; 0]] "in1";
            InputVariable [PInt 3; PInt (-6)] "in2"]
           (OutputValue [PList [4; 5; 7; 10]; PList [-6; -6]])).
  - split; [reflexivity | simpl; lia].
  - repeat constructor; by eexists.
  - simpl. lia.
  - repeat constructor; by eexists.
Defined.

(** ** Cross-type comparison, case by case *)

(** X17: A bool is compared with nothing but a bool: against an int or a list,
    in either order, the variable-length comparison is empty. *)
Theorem compare_bool_with_other (b : bool) (y : pyobj) :
  supported y → type_of y ≠ TBool →
  _compare (PBool b) y false = Ok [] ∧ _compare y (PBool b) false = Ok [].
Proof.
  intros Hy Ht. unfold _compare, _compare_variable_length.
  destruct y; try discriminate Hy; try done; expand_relevant; by split.
Qed.

Lemma compare_bool_with_other_witness :
  _compare (PBool true) (PList [1; 0]) false = Ok [] ∧
  _compare (PList [1; 0]) (PBool true) false = Ok [].
Proof. by apply (compare_bool_with_other true (PList [1; 0])). Defined.

(** X18: An int is compared with a list through the six ints of the list's
    relevance set (length, max, min, sum, first, last), in that order and
    never with the list itself; a list against an int likewise, with the
    derived ints on the left. *)
Theorem compare_int_with_list (x : Z) (l : list Z) :
  ∃ derived,
    _relevant (PList l) = Ok (PList l :: derived) ∧
    length derived = 6%nat ∧
    Forall (λ r, type_of r = TInt) derived ∧
    _compare (PInt x) (PList l) false
      = rmap (map Some) (sum_lists (_compare_same_type (PInt x)) derived) ∧
    _compare (PList l) (PInt x) false
      = rmap (map Some)
          (sum_lists (λ r, _compare_same_type r (PInt x)) derived).
Proof.
  destruct (relevant_list_shape l) as (mx & mn & sm & fst & lst & Hrel).
  eexists. split; [exact Hrel|]. split; [done|].
  split; [by repeat constructor|].
  unfold _compare, _compare_variable_length. rewrite Hrel.
  split; reflexivity.
Qed.

(** ** Lambda sampler: what is recorded *)

Lemma product_repeat_length {A} (pool : list A) (k : nat) :
  length (product_repeat pool k) = (length pool ^ k)%nat.
Proof.
  induction k as [|k IH]; [done|]. cbn [product_repeat Nat.pow].
  rewrite <- IH. generalize (product_repeat pool k). intros tuples.
  clear IH. induction pool as [|a pool IHp]; [done|].
  csimpl. rewrite length_app, length_map, IHp. lia.
Qed.

(** X19: The sampler tries 43 probe values in every argument: a value of arity
    [k] is run on 43^k tuples of [k] probes each. *)
Theorem probe_tuples_count (value : Value) :
  length (probe_tuples value)
    = (43 ^ Z.to_nat (num_free_variables value))%nat ∧
  Forall (λ inputs_list,
            length inputs_list = Z.to_nat (num_free_variables value))
    (probe_tuples value).
Proof.
  split.
  - unfold probe_tuples. by rewrite product_repeat_length.
  - apply Forall_forall. intros t Ht.
    by apply product_repeat_elem in Ht as [? _].
Qed.

Lemma samples_of_elem_iff (lambda_fn : entry) (probes : list (list pyobj))
    (inputs_list : list pyobj) (o : pyobj) :
  (inputs_list, o) ∈ samples_of lambda_fn probes ↔
  inputs_list ∈ probes ∧ call lambda_fn inputs_list = Returns o ∧ o ≠ PNone.
Proof.
  split; [apply samples_of_elem|]. intros (Hin & Hcall & Hnone).
  unfold samples_of. apply list_elem_of_omap. exists inputs_list.
  split; [done|]. rewrite Hcall. by destruct o.
Qed.

Lemma collect_length (fns : list entry) (probes : list (list pyobj))
    (st : list (list io_pair)) :
  length (collect fns probes st) = length st.
Proof.
  revert st. induction fns as [|fn fns IH]; intros [|p st]; simpl; try done.
  by rewrite IH.
Qed.

Lemma collect_lookup (fns : list entry) (probes : list (list pyobj))
    (n k : nat) (fn : entry) :
  fns !! k = Some fn → (k < n)%nat →
  collect fns probes (replicate n []) !! k = Some (samples_of fn probes).
Proof.
  revert n k. induction fns as [|f fns IH]; intros n k Hk Hn; [done|].
  destruct n as [|n]; [lia|]. destruct k as [|k]; simpl in *.
  - by injection Hk as ->.
  - apply IH; [done | lia].
Qed.

(** X20: [_run_lambda] returns one list of pairs per example, and the list of
    an example holds exactly the probe tuples on which that example's
    callable returned something other than [None], each with the result:
    calls that raise or return [None] leave no trace, and nothing else is
    recorded. *)
Theorem run_lambda_records (value : Value) :
  0 < num_free_variables value →
  ∃ io, _run_lambda value = Ok io ∧
        length io = num_examples value ∧
        ∀ k lambda_fn,
          values value !! k = Some lambda_fn → (k < num_examples value)%nat →
          ∃ pairs, io !! k = Some pairs ∧
            ∀ inputs_list o,
              (inputs_list, o) ∈ pairs ↔
              inputs_list ∈ probe_tuples value ∧
              call lambda_fn inputs_list = Returns o ∧ o ≠ PNone.
Proof.
  intros Hpos. eexists. split; [by apply run_lambda_collect|].
  split; [by rewrite collect_length, length_replicate|].
  intros k fn Hk Hn. eexists. split; [by apply collect_lookup|].
  intros inputs o. apply samples_of_elem_iff.
Qed.

Lemma run_lambda_records_witness :
  ∃ io, _run_lambda _LAMBDA_VALUE = Ok io ∧
        length io = num_examples _LAMBDA_VALUE ∧
        ∀ k lambda_fn,
          values _LAMBDA_VALUE !! k = Some lambda_fn →
          (k < num_examples _LAMBDA_VALUE)%nat →
          ∃ pairs, io !! k = Some pairs ∧
            ∀ inputs_list o,
              (inputs_list, o) ∈ pairs ↔
              inputs_list ∈ probe_tuples _LAMBDA_VALUE ∧
              call lambda_fn inputs_list = Returns o ∧ o ≠ PNone.
Proof. apply (run_lambda_records _LAMBDA_VALUE). simpl. lia. Defined.

(** ** Dispatcher: guards and blocks *)

(** X21: A value with a negative [num_free_variables] is truthy for the
    dispatcher, goes to the lambda branch and is stopped by the
    [assert arity > 0] of the sampler, in both modes. *)
Theorem negative_arity_rejected
    (value output_value : Value) (fixed_length : bool) :
  num_free_variables value < 0 →
  property_signature_value value output_value fixed_length
  = Err AssertionError.
Proof.
  intros Hneg. unfold property_signature_value.
  replace (num_free_variables value =? 0) with false
    by (symmetry; apply Z.eqb_neq; lia).
  unfold _property_signature_lambda, _property_signature_lambda_with,
    _run_lambda.
  replace (0 <? num_free_variables value) with false
    by (symmetry; apply Z.ltb_ge; lia).
  by destruct fixed_length.
Qed.

Lemma negative_arity_rejected_witness :
  property_signature_value (mkValue [Obj (PInt 1)] 1 (-1))
    (OutputValue [PInt 1]) true
  = Err AssertionError.
Proof.
  apply (negative_arity_rejected
           (mkValue [Obj (PInt 1)] 1 (-1)) (OutputValue [PInt 1]) true).
  simpl. lia.
Defined.

(** X22: The two blocks of a fixed-length value signature: for a concrete
    value the first 222 tuples are its own signature and the 892 that
    follow are all padding; for a functional value the first 222 are all
    padding and the 892 that follow are its lambda signature. *)
Theorem property_signature_value_blocks (value output_value : Value) :
  Value_wf value → Value_wf output_value →
  num_examples value = num_examples output_value →
  concrete_entries output_value →
  (num_free_variables value = 0 ∧ concrete_entries value) ∨
  (0 < num_free_variables value ∧ lambda_results_supported value) →
  ∃ block,
    (if decide (num_free_variables value = 0)
     then _property_signature_concrete_value value output_value true
            = Ok block ∧
          length block = _SIGNATURE_LENGTH_CONCRETE_VALUE ∧
          property_signature_value value output_value true
            = Ok (block ++
                  replicate _SIGNATURE_LENGTH_LAMBDA_VALUE _REDUCED_PADDING)
     else _property_signature_lambda value output_value true = Ok block ∧
          length block = _SIGNATURE_LENGTH_LAMBDA_VALUE ∧
          property_signature_value value output_value true
            = Ok (replicate _SIGNATURE_LENGTH_CONCRETE_VALUE _REDUCED_PADDING
                  ++ block)).
Proof.
  intros Hv Ho Hsame Hco [[Hz Hcv] | [Hpos Hres]].
  - destruct (concrete_value_fixed_length value output_value)
      as (c & Hc & Hlen); try done.
    exists c. rewrite decide_True by done. split; [done|]. split; [done|].
    unfold property_signature_value. rewrite Hz, Hc. reflexivity.
  - destruct (lambda_fixed_length value output_value)
      as (l & Hl & Hlen); try done.
    exists l. rewrite decide_False by lia. split; [done|]. split; [done|].
    unfold property_signature_value.
    replace (num_free_variables value =? 0) with false
      by (symmetry; apply Z.eqb_neq; lia).
    cbn [negb]. rewrite Hl. reflexivity.
Qed.

Lemma property_signature_value_blocks_witness :
  ∃ block,
    _property_signature_lambda _LAMBDA_VALUE (OutputValue [PInt 1]) true
      = Ok block ∧
    length block = _SIGNATURE_LENGTH_LAMBDA_VALUE ∧
    property_signature_value _LAMBDA_VALUE (OutputValue [PInt 1]) true
      = Ok (replicate _SIGNATURE_LENGTH_CONCRETE_VALUE _REDUCED_PADDING
            ++ block).
Proof.
  apply (property_signature_value_blocks _LAMBDA_VALUE (OutputValue [PInt 1])).
  - split; [reflexivity | simpl; lia].
  - split; [reflexivity | simpl; lia].
  - reflexivity.
  - repeat constructor; by eexists.
  - right. split; [simpl; lia | exact add_10_supported].
Defined.

(** ** Lambda signature: the type bits *)

Lemma map_result_Ok_Forall {A B} (f : A → result B) (P : B → Prop)
    (l : list A) (bs : list B) :
  map_result f l = Ok bs → (∀ a b, f a = Ok b → P b) → Forall P bs.
Proof.
  intros Hbs HP. revert bs Hbs.
  induction l as [|a l IH]; intros bs Hbs; simpl in Hbs.
  - injection Hbs as <-. constructor.
  - destruct (f a) as [b|] eqn:Hb; [|done].
    destruct (map_result f l) as [bs'|]; [|done].
    simpl in Hbs. injection Hbs as <-. constructor; eauto.
Qed.

Lemma sum_lists_Ok_Forall {A B} (f : A → result (list B)) (P : B → Prop)
    (l : list A) (r : list B) :
  sum_lists f l = Ok r → (∀ a bs, f a = Ok bs → Forall P bs) → Forall P r.
Proof.
  intros Hr HP. revert r Hr.
  induction l as [|a l IH]; intros r Hr; simpl in Hr.
  - injection Hr as <-. constructor.
  - destruct (f a) as [b|] eqn:Hb; [|done].
    destruct (sum_lists f l) as [t|]; [|done].
    simpl in Hr. injection Hr as <-. apply Forall_app. eauto.
Qed.

Lemma reduce_across_examples_Ok_inv
    (signatures : list (list (option bool))) (res : list reduced) :
  _reduce_across_examples signatures = Ok res →
  signatures ≠ [] ∧ ∃ L, Forall (λ s, length s = L) signatures.
Proof.
  unfold _reduce_across_examples. destruct signatures as [|s0 rest]; [done|].
  intros Hres. split; [done|]. exists (length s0).
  change (py_index (s0 :: rest) 0) with (Ok s0) in Hres.
  cbn [length Nat.eqb negb py_assert rbind] in Hres.
  destruct (forallb _ (s0 :: rest)) eqn:Hall; [|done].
  rewrite forallb_forall in Hall. apply Forall_forall.
  intros s Hs%list_elem_of_In. by apply Nat.eqb_eq, Hall.
Qed.

Lemma sample_signature_type_bits (value output_value : Value)
    (fixed_length : bool) (k : nat) (pair : io_pair)
    (s : list (option bool)) :
  0 < num_free_variables value →
  sample_signature value output_value fixed_length k pair = Ok s →
  ∃ rest, s = [Some true; Some false; Some false; Some false] ++ rest.
Proof.
  intros Hpos. unfold sample_signature. destruct pair as [inputs o].
  destruct (getitem output_value k); [|done]. cbn [rbind].
  destruct (_compare o _ fixed_length) as [c|]; [|done]. cbn [rbind].
  destruct (_property_signature_single_example _ _ _) as [e|]; [|done].
  cbn [rbind]. intros [= <-]. exists (c ++ e).
  unfold _type_property, obj_of_Value. cbn [getattr_num_free_variables].
  apply Z.ltb_lt in Hpos. rewrite Hpos. reflexivity.
Qed.

(** X23: In the signature of a functional value with at least one recorded
    sample, the four leading tuples are the reduced type bits of the
    lambda itself, the same in every sample: is_lambda is
    (1.0, True, False, 1.0) and is_boolean, is_integer, is_list are
    (1.0, False, True, 0.0). *)
Theorem lambda_signature_type_bits (value output_value : Value) :
  Value_wf value → Value_wf output_value →
  num_examples value = num_examples output_value →
  concrete_entries output_value →
  0 < num_free_variables value → lambda_results_supported value →
  (∃ lambda_fn inputs_list o,
     lambda_fn ∈ values value ∧ inputs_list ∈ probe_tuples value ∧
     call lambda_fn inputs_list = Returns o ∧ o ≠ PNone) →
  ∃ res, _property_signature_lambda value output_value true = Ok res ∧
    take 4 res = [(1 # 1, true, false, 1 # 1); (1 # 1, false, true, 0 # 1);
                  (1 # 1, false, true, 0 # 1); (1 # 1, false, true, 0 # 1)]%Q.
Proof.
  intros Hv Ho Hsame Hco Hpos Hsup (fn & inputs & o & Hfn & Hin & Hcall & Hnn).
  destruct (lambda_fixed_length value output_value) as (res & Hres & Hlen);
    try done.
  exists res. split; [done|].
  unfold _property_signature_lambda, _property_signature_lambda_with in Hres.
  destruct Hv as [Hv _].
  rewrite run_lambda_collect, Hv, collect_replicate in Hres by done.
  cbn [rbind] in Hres.
  set (io := map (λ fn, samples_of fn (probe_tuples value)) (values value))
    in Hres.
  assert (Hsome : forallb (λ pairs : list io_pair, bool_decide (pairs = []))
                    io = false).
  { apply not_true_iff_false. rewrite forallb_forall. intros Hall.
    specialize (Hall (samples_of fn (probe_tuples value))).
    assert (Hs : (inputs, o) ∈ samples_of fn (probe_tuples value))
      by (by apply samples_of_elem_iff).
    rewrite bool_decide_eq_true in Hall. rewrite Hall in Hs; [by inv Hs|].
    apply list_elem_of_In. subst io.
    by apply (list_elem_of_fmap_2
                (λ fn, samples_of fn (probe_tuples value))). }
  rewrite Hsome in Hres.
  destruct (sum_lists _ (enumerate io)) as [sigs|] eqn:Hsigs; [|done].
  cbn [rbind] in Hres.
  destruct (reduce_across_examples_Ok_inv sigs res Hres) as (Hne & L & HL).
  assert (Hbits : Forall (λ s, ∃ rest,
      s = [Some true; Some false; Some false; Some false] ++ rest) sigs).
  { eapply sum_lists_Ok_Forall; [exact Hsigs|]. intros [k pairs] bs Hbs.
    eapply map_result_Ok_Forall; [exact Hbs|]. intros pair s Hs.
    by eapply sample_signature_type_bits. }
  assert (Hpos_j : ∀ j b,
    [Some true; Some false; Some false; Some false] !! j = Some (Some b) →
    res !! j = Some (1 # 1, b, negb b, if b then 1 # 1 else 0 # 1)%Q).
  { intros j b Hj.
    destruct (reduce_constant_column sigs L j b Hne HL) as (res' & Hr' & Hj').
    - eapply Forall_impl; [exact Hbits|]. intros s [rest ->].
      by apply lookup_app_l_Some.
    - congruence. }
  pose proof (Hpos_j 0%nat true eq_refl) as H0.
  pose proof (Hpos_j 1%nat false eq_refl) as H1.
  pose proof (Hpos_j 2%nat false eq_refl) as H2.
  pose proof (Hpos_j 3%nat false eq_refl) as H3.
  destruct res as [|r0 [|r1 [|r2 [|r3 res]]]]; try done.
  injection H0 as ->. injection H1 as ->. injection H2 as ->.
  injection H3 as ->. reflexivity.
Qed.

Lemma lambda_signature_type_bits_witness :
  ∃ res,
    _property_signature_lambda _LAMBDA_VALUE (OutputValue [PInt 1]) true
      = Ok res ∧
    take 4 res = [(1 # 1, true, false, 1 # 1); (1 # 1, false, true, 0 # 1);
                  (1 # 1, false, true, 0 # 1); (1 # 1, false, true, 0 # 1)]%Q.
Proof.
  apply (lambda_signature_type_bits _LAMBDA_VALUE (OutputValue [PInt 1])).
  - split; [reflexivity | simpl; lia].
  - split; [reflexivity | simpl; lia].
  - reflexivity.
  - repeat constructor; by eexists.
  - simpl. lia.
  - exact add_10_supported.
  - exists (Fn add_10), [PInt 0], (PInt 10).
    split; [left|]. split; [|by split].
    unfold probe_tuples, inputs_to_try. simpl.
    apply list_elem_of_In. simpl. tauto.
Defined.

(** ** Unhandled objects in context *)

(** X24: An object of an unhandled type fails fast wherever its own signature
    is composed, in both modes: as the object of
    [_property_signature_single_object], and as the output of
    [_property_signature_single_example] whatever the inputs are. *)
Theorem unhandled_object_in_context
    (x other : pyobj) (inputs : list pyobj) (fixed_length : bool) :
  handled_type (type_of x) = false →
  _property_signature_single_object x other fixed_length
    = Err (NotImplementedError (type_of x)) ∧
  _property_signature_single_example inputs x fixed_length
    = Err (NotImplementedError (type_of x)).
Proof.
  intros H. unfold _property_signature_single_object,
    _property_signature_single_example.
  rewrite basic_signature_unhandled by done. by destruct fixed_length.
Qed.

Lemma unhandled_object_in_context_witness :
  _property_signature_single_object (PFloat (3 # 2)) (PInt 1) true
    = Err (NotImplementedError TFloat) ∧
  _property_signature_single_example [PInt 1] (PFloat (3 # 2)) true
    = Err (NotImplementedError TFloat).
Proof.
  by apply (unhandled_object_in_context (PFloat (3 # 2)) (PInt 1) [PInt 1] true).
Defined.
